(** * Credential-and-session lifecycle of the login/signup server

    A shallow embedding of the server side of the repository:

    - [server/lib/jwt.ts]        ([generateToken], [verifyToken]),
    - [server/middleware/auth.ts] ([authenticateToken]),
    - [server/routes/auth.ts]     ([register], [login], [getProfile], [logout]).

    Handlers are functions over an explicit [World] (the users collection,
    whether the database can be reached, the clock, and a log of the calls made
    to the store, to the token verifier and to the downstream handler).
    JavaScript exceptions are values of [Result]; [try]/[catch] around a handler body
    is [handle].

    The [jsonwebtoken] package enters as the record [JwtLib], with the law
    that relates [jwt.sign] and [jwt.verify].  [server/models/User.ts] and
    [server/lib/mongodb.ts] are not among the sources: the store operations
    the handlers call are modelled from the specification of the Credential
    Store, over a schema [UserSchema] that is a parameter. *)

From Stdlib Require Import String Ascii List ZArith Bool Lia.
Import ListNotations.
Open Scope string_scope.
Open Scope Z_scope.

#[local] Set Warnings "-register-all".

(* ================================================================= *)
(** ** JavaScript values used by the server *)

(** JSON bodies, as [res.json] serialises them. *)
Inductive json : Type :=
| JNull
| JBool (b : bool)
| JStr (s : string)
| JArr (xs : list json)
| JObj (fields : list (string * json)).

(** Does the key [k] occur as a field name anywhere inside [j]? *)
Fixpoint has_key (k : string) (j : json) : bool :=
  match j with
  | JArr xs => existsb (has_key k) xs
  | JObj fs => existsb (fun kv => String.eqb k (fst kv) || has_key k (snd kv)) fs
  | _ => false
  end.

(** Top-level field lookup, [body.k]. *)
Fixpoint field (k : string) (fs : list (string * json)) : option json :=
  match fs with
  | [] => None
  | (k', v) :: r => if String.eqb k k' then Some v else field k r
  end.

Definition get (k : string) (j : json) : option json :=
  match j with
  | JObj fs => field k fs
  | _ => None
  end.

(** The field names of an object, in order. *)
Definition keys (j : json) : list string :=
  match j with
  | JObj fs => map fst fs
  | _ => []
  end.

(** A value of type [string | undefined]; [None] is [undefined]. *)
Definition jsstring := option string.

(** JavaScript truthiness of a [string | undefined]: [undefined] and the empty
    string are falsy. *)
Definition truthy (v : jsstring) : bool :=
  match v with
  | Some s => negb (String.eqb s "")
  | None => false
  end.

(** The string held by a truthy value. *)
Definition str (v : jsstring) : string :=
  match v with
  | Some s => s
  | None => ""
  end.

(** [s.split(sep)] for a one-character separator: every occurrence of the
    separator ends a part, so the result is never empty and ["".split(" ")] is
    [[""]]. *)
Fixpoint split (sep : ascii) (s : string) : list string :=
  match s with
  | EmptyString => [EmptyString]
  | String c r =>
      if Ascii.eqb c sep then EmptyString :: split sep r
      else match split sep r with
           | h :: t => String c h :: t
           | [] => [String c EmptyString]
           end
  end.

(** [a && f(a)] on a [string | undefined]: a falsy [a] is the result. *)
Definition js_and (a : jsstring) (f : string -> jsstring) : jsstring :=
  if truthy a then f (str a) else a.

(** [p || d] on a [string | undefined] with a string default. *)
Definition js_or (p : jsstring) (d : string) : string :=
  if truthy p then str p else d.

(** Does the character [c] occur in [s]? *)
Fixpoint occurs (c : ascii) (s : string) : bool :=
  match s with
  | EmptyString => false
  | String a r => Ascii.eqb a c || occurs c r
  end.

(* ================================================================= *)
(** ** Exceptions *)

(** A thrown JavaScript error object: its [name], its [message] and, for a
    Mongoose [ValidationError], the messages of [error.errors]. *)
Record JsError : Type := mkError {
  err_name : string;
  err_message : string;
  err_errors : list string
}.

Inductive Result (A : Type) : Type :=
| Ok (a : A)
| Throw (e : JsError).
Arguments Ok {A} a.
Arguments Throw {A} e.

(** [new Error(msg)] *)
Definition Error (msg : string) : JsError := mkError "Error" msg [].

(** The errors [jwt.verify] throws. *)
Definition JsonWebTokenError (msg : string) : JsError :=
  mkError "JsonWebTokenError" msg [].
Definition TokenExpiredError : JsError :=
  mkError "TokenExpiredError" "jwt expired" [].

(** The error [save] throws when a schema validator rejects the document. *)
Definition ValidationError (msgs : list string) : JsError :=
  mkError "ValidationError" "User validation failed" msgs.

(** The error of an unreachable database. *)
Definition MongooseServerSelectionError : JsError :=
  mkError "MongooseServerSelectionError" "connect ECONNREFUSED" [].

(* ================================================================= *)
(** ** server/lib/jwt.ts *)

Record JWTPayload : Type := mkPayload {
  userId : string;
  p_email : string;
  p_name : string
}.

(** The [jsonwebtoken] package, as the server uses it.

    - [jwt_sign payload secret expiresIn now] is [jwt.sign(payload, secret,
      {expiresIn})] called when the clock reads [now] (in seconds);
    - [jwt_verify token secret now] is [jwt.verify(token, secret)];
    - [timespan] reads an [expiresIn] string as a number of seconds.

    The laws are the documented behaviour of the package: a token signed with
    a non-empty secret and a readable time span verifies, under the same
    secret, to the payload it was signed with for as long as the clock is
    before [iat + expiresIn], and is rejected with [TokenExpiredError] from
    then on.  (The decoded object also holds [iat] and [exp]; at the type
    [JWTPayload], which is all the server reads, it is the payload.) *)
Record JwtLib : Type := {
  jwt_sign : JWTPayload -> string -> string -> Z -> Result string;
  jwt_verify : string -> string -> Z -> Result JWTPayload;
  timespan : string -> option Z;
  timespan_7d : timespan "7d" = Some 604800;
  sign_returns : forall p s e now ttl,
      s <> "" -> timespan e = Some ttl ->
      exists tok, jwt_sign p s e now = Ok tok;
  verify_sign : forall p s e iat ttl tok now,
      timespan e = Some ttl ->
      jwt_sign p s e iat = Ok tok ->
      jwt_verify tok s now =
        if now <? iat + ttl then Ok p else Throw TokenExpiredError
}.

(** [process.env], restricted to the two variables read by [jwt.ts]. *)
Record Env : Type := {
  env_JWT_SECRET : jsstring;
  env_JWT_EXPIRE : jsstring
}.

Definition JWT_SECRET (env : Env) : string :=
  js_or (env_JWT_SECRET env) "your-secret-key-change-in-production".

Definition JWT_EXPIRE (env : Env) : string :=
  js_or (env_JWT_EXPIRE env) "7d".

(** A stored user document.  [password] holds the hash; it is [None] on a
    document fetched with [select("-password")]. *)
Record IUser : Type := mkUser {
  _id : string;
  email : string;
  name : string;
  password : jsstring;
  createdAt : string
}.

Section Jwt.
Variable L : JwtLib.
Variable env : Env.

Definition generateToken (user : IUser) (now : Z) : Result string :=
  let payload := {| userId := _id user;
                    p_email := email user;
                    p_name := name user |} in
  jwt_sign L payload (JWT_SECRET env) (JWT_EXPIRE env) now.

Definition verifyToken (token : string) (now : Z) : Result JWTPayload :=
  match jwt_verify L token (JWT_SECRET env) now with
  | Ok decoded => Ok decoded
  | Throw _ => Throw (Error "Invalid token")
  end.
End Jwt.

(* ================================================================= *)
(** ** The world a request runs in *)

(** The calls a handler makes to its collaborators, most recent first. *)
Inductive Event : Type :=
| Connect                        (* connectDB() resolved *)
| FindOne (query_email : string) (* User.findOne({ email }).exec() *)
| FindById (query_id : jsstring) (* User.findById(id).select("-password").exec() *)
| Save (doc : IUser)             (* user.save() wrote doc *)
| Verify (token : string)        (* verifyToken(token) *)
| Next.                          (* next() *)

Record World : Type := mkWorld {
  users : list IUser;   (* the users collection, in insertion order *)
  reachable : bool;     (* does connectDB() resolve? *)
  clock : Z;            (* the current time, in seconds *)
  log : list Event
}.

Definition record (ev : Event) (w : World) : World :=
  {| users := users w; reachable := reachable w; clock := clock w;
     log := ev :: log w |}.

Definition insert (u : IUser) (w : World) : World :=
  {| users := users w ++ [u]; reachable := reachable w; clock := clock w;
     log := log w |}.

(** Computations that read and write the world and may throw. *)
Definition M (A : Type) : Type := World -> Result A * World.

Definition ret {A} (a : A) : M A := fun w => (Ok a, w).

Definition throw {A} (e : JsError) : M A := fun w => (Throw e, w).

Definition bind {A B} (m : M A) (k : A -> M B) : M B :=
  fun w =>
    match m w with
    | (Ok a, w') => k a w'
    | (Throw e, w') => (Throw e, w')
    end.

Declare Scope js_scope.
Delimit Scope js_scope with js.
Notation "x <- m ;; k" := (bind m (fun x => k))
  (at level 100, m at next level, right associativity) : js_scope.
Notation "m ;; k" := (bind m (fun _ => k))
  (at level 100, right associativity) : js_scope.
Open Scope js_scope.

(** A value computed from the world, throwing when the computation does. *)
Definition lift {A} (f : World -> Result A) : M A := fun w => (f w, w).

(** [try { m } catch (error) { h error }] where the catch block only builds a
    response: the shape of every handler of [routes/auth.ts]. *)
Definition handle {A} (m : M A) (h : JsError -> A) : World -> A * World :=
  fun w =>
    match m w with
    | (Ok a, w') => (a, w')
    | (Throw e, w') => (h e, w')
    end.

(** What the server sends: [res.status(status).json(body)]; a bare
    [res.json(body)] has status 200. *)
Record Response : Type := mkResponse {
  status : Z;
  body : json
}.

Definition res_json (b : json) : Response := mkResponse 200 b.

(** An incoming request: the [Authorization] header, the three body fields
    the handlers destructure, and the [user] slot of [AuthRequest]. *)
Record Request : Type := mkRequest {
  authorization : jsstring;
  req_email : jsstring;
  req_password : jsstring;
  req_name : jsstring;
  req_user : option JWTPayload
}.

Definition set_user (req : Request) (decoded : JWTPayload) : Request :=
  {| authorization := authorization req;
     req_email := req_email req;
     req_password := req_password req;
     req_name := req_name req;
     req_user := Some decoded |}.

Definition Handler : Type := Request -> World -> Response * World.

(* ================================================================= *)
(** ** The User model (server/models/User.ts, server/lib/mongodb.ts) *)

(** Modelled from the spec: the Mongoose schema of [server/models/User.ts],
    which is not among the sources.  It is a parameter: the validators run on
    creation (one message per violated field, none when the document is
    valid), the salted one-way hash applied before a document is written, the
    comparison of a candidate password with a stored hash, the generator of
    [_id] and the rendering of the creation date. *)
Record UserSchema : Type := {
  validate : string -> string -> string -> list string; (* email password name *)
  bcrypt_hash : string -> string;
  bcrypt_compare : string -> string -> bool;            (* candidate, hash *)
  newObjectId : Z -> list IUser -> string;
  toISOString : Z -> string
}.

(** Modelled from the spec: [connectDB] of [server/lib/mongodb.ts], which is
    not among the sources.  The connection is made once and reused; an
    operation on durable storage may fail with [StorageUnavailable], which
    here is a world whose database is not [reachable]. *)
Definition connectDB : M unit :=
  fun w =>
    if reachable w then (Ok tt, record Connect w)
    else (Throw MongooseServerSelectionError, w).

(** Modelled from the spec: [findByEmail(email) -> User | NotFound] of the
    Credential Store, called as [User.findOne({ email }).exec()]: the first
    document with that email, [None] for [null]. *)
Definition User_findOne (e : string) : M (option IUser) :=
  fun w =>
    (Ok (find (fun u => String.eqb (email u) e) (users w)),
     record (FindOne e) w).

(** [.select("-password")] *)
Definition select_minus_password (u : IUser) : IUser :=
  {| _id := _id u; email := email u; name := name u;
     password := None; createdAt := createdAt u |}.

Definition lookup_id (id : jsstring) (us : list IUser) : option IUser :=
  match id with
  | Some i => find (fun u => String.eqb (_id u) i) us
  | None => None
  end.

(** Modelled from the spec: [findById(id) -> User | NotFound] of the
    Credential Store, excluding the password hash from the result, called as
    [User.findById(id).select("-password").exec()]. *)
Definition User_findById_select (id : jsstring) : M (option IUser) :=
  fun w =>
    (Ok (option_map select_minus_password (lookup_id id (users w))),
     record (FindById id) w).

(** Modelled from the spec: the normalisation of [email] in the data model
    of [server/models/User.ts] (not among the sources), "normalized
    (trimmed/lowercased)": white space is removed at both ends and the
    letters [A]-[Z] are lowered. *)
Definition is_whitespace (c : ascii) : bool :=
  let n := nat_of_ascii c in
  Nat.eqb n 32 || (Nat.leb 9 n && Nat.leb n 13).

Fixpoint trimStart (s : string) : string :=
  match s with
  | EmptyString => EmptyString
  | String c r => if is_whitespace c then trimStart r else s
  end.

Fixpoint trimEnd (s : string) : string :=
  match s with
  | EmptyString => EmptyString
  | String c r =>
      match trimEnd r with
      | EmptyString => if is_whitespace c then EmptyString else String c EmptyString
      | String c' r' => String c (String c' r')
      end
  end.

Definition trim (s : string) : string := trimEnd (trimStart s).

Definition lower (c : ascii) : ascii :=
  let n := nat_of_ascii c in
  if Nat.leb 65 n && Nat.leb n 90 then ascii_of_nat (n + 32) else c.

Fixpoint toLowerCase (s : string) : string :=
  match s with
  | EmptyString => EmptyString
  | String c r => String (lower c) (toLowerCase r)
  end.

Definition normalize_email (e : string) : string := toLowerCase (trim e).

(** Modelled from the spec: the [DuplicateEmail] failure of [create] in the
    Credential Store ([server/models/User.ts], not among the sources), which
    the driver reports as a duplicate-key error. *)
Definition DuplicateEmail : JsError :=
  mkError "MongoServerError" "E11000 duplicate key error" [].

(** Modelled from the spec: the uniqueness test of [create], "a record with
    the same (normalized) email exists". *)
Definition email_taken (e : string) (us : list IUser) : bool :=
  existsb (fun u => String.eqb (email u) (normalize_email e)) us.

Section Model.
Variable S : UserSchema.

(** Modelled from the spec: [create(email, name, plaintextPassword)] of the
    Credential Store ([server/models/User.ts], not among the sources), called
    as [new User({ email, password, name })] followed by [await user.save()].
    A violated constraint fails with a [ValidationError] carrying one message
    per violated field; a record with the same normalised email makes it fail
    with [DuplicateEmail]; otherwise the email is normalised, the plaintext
    password is turned into a salted hash and the record is written. *)
Definition User_save (e p n : string) : M IUser :=
  fun w =>
    match validate S e p n with
    | [] =>
        if email_taken e (users w) then (Throw DuplicateEmail, w)
        else
          let user := {| _id := newObjectId S (clock w) (users w);
                         email := normalize_email e;
                         name := n;
                         password := Some (bcrypt_hash S p);
                         createdAt := toISOString S (clock w) |} in
          (Ok user, record (Save user) (insert user w))
    | msgs => (Throw (ValidationError msgs), w)
    end.

(** Modelled from the spec: [verifyPassword(user, plaintextPassword) -> bool]
    of the Credential Store, called as [user.comparePassword(candidate)]: the
    candidate is compared with the stored hash.  On a document without a hash
    the comparison throws. *)
Definition comparePassword (user : IUser) (candidate : string) : M bool :=
  match password user with
  | Some h => ret (bcrypt_compare S candidate h)
  | None => throw (Error "Illegal arguments: string, undefined")
  end.
End Model.

(* ================================================================= *)
(** ** server/middleware/auth.ts and server/routes/auth.ts *)

(** [authHeader && authHeader.split(" ")[1]], the token as the middleware
    reads it off the header. *)
Definition header_token (authHeader : jsstring) : jsstring :=
  js_and authHeader (fun h => nth_error (split " " h) 1).

Definition failure (code : Z) (message : string) : Response :=
  mkResponse code (JObj [("success", JBool false); ("message", JStr message)]).

Section Server.
Variable L : JwtLib.
Variable env : Env.
Variable S : UserSchema.

(** [generateToken(user)], reading the clock. *)
Definition issue (user : IUser) : M string :=
  lift (fun w => generateToken L env user (clock w)).

(** The middleware.  [next()] stands inside the [try] block, but the handlers
    it leads to are [async] functions with a [try]/[catch] of their own: they
    never throw into it, so the [catch] answers to [verifyToken] alone. *)
Definition authenticateToken (req : Request) (next : Handler)
  : World -> Response * World :=
  fun w =>
    let authHeader := authorization req in
    let token := header_token authHeader in
    if negb (truthy token) then
      (failure 401 "Access token required", w)
    else
      let w1 := record (Verify (str token)) w in
      match verifyToken L env (str token) (clock w) with
      | Ok decoded => next (set_user req decoded) (record Next w1)
      | Throw _ => (failure 403 "Invalid or expired token", w1)
      end.

Definition public_user (user : IUser) : json :=
  JObj [("id", JStr (_id user));
        ("email", JStr (email user));
        ("name", JStr (name user))].

(** The [catch] block of [register]. *)
Definition register_catch (error : JsError) : Response :=
  if String.eqb (err_name error) "ValidationError" then
    mkResponse 400
      (JObj [("success", JBool false);
             ("message", JStr "Validation failed");
             ("errors", JArr (map JStr (err_errors error)))])
  else failure 500 "Internal server error".

Definition register : Handler :=
  fun req =>
    handle
      (connectDB ;;
       let email := req_email req in
       let password := req_password req in
       let name := req_name req in
       if negb (truthy email) || negb (truthy password) || negb (truthy name)
       then
         ret (failure 400 "Email, password, and name are required")
       else
         existingUser <- User_findOne (str email) ;;
         match existingUser with
         | Some _ =>
             ret (failure 400 "User with this email already exists")
         | None =>
             user <- User_save S (str email) (str password) (str name) ;;
             token <- issue user ;;
             ret (mkResponse 201
                    (JObj [("success", JBool true);
                           ("message", JStr "User registered successfully");
                           ("token", JStr token);
                           ("user", public_user user)]))
         end)
      register_catch.

Definition login : Handler :=
  fun req =>
    handle
      (connectDB ;;
       let email := req_email req in
       let password := req_password req in
       if negb (truthy email) || negb (truthy password) then
         ret (failure 400 "Email and password are required")
       else
         found <- User_findOne (str email) ;;
         match found with
         | None => ret (failure 400 "Invalid email or password")
         | Some user =>
             isMatch <- comparePassword S user (str password) ;;
             if negb isMatch then
               ret (failure 400 "Invalid email or password")
             else
               token <- issue user ;;
               ret (res_json
                      (JObj [("success", JBool true);
                             ("message", JStr "Login successful");
                             ("token", JStr token);
                             ("user", public_user user)]))
         end)
      (fun _ => failure 500 "Internal server error").

Definition getProfile : Handler :=
  fun req =>
    handle
      (connectDB ;;
       found <- User_findById_select (option_map userId (req_user req)) ;;
       match found with
       | None => ret (failure 404 "User not found")
       | Some user =>
           ret (res_json
                  (JObj [("success", JBool true);
                         ("user",
                          JObj [("id", JStr (_id user));
                                ("email", JStr (email user));
                                ("name", JStr (name user));
                                ("createdAt", JStr (createdAt user))])]))
       end)
      (fun _ => failure 500 "Internal server error").

Definition logout : Handler :=
  fun _ w =>
    (res_json (JObj [("success", JBool true);
                     ("message", JStr "Logout successful")]), w).

(** [app.get("/api/auth/profile", authenticateToken, getProfile)] *)
Definition profile_route : Handler :=
  fun req => authenticateToken req getProfile.

End Server.

(* ================================================================= *)
(** ** Notions used to state the properties *)

Section Notions.
Variable S : UserSchema.

(** The document [register] builds and writes. *)
Definition new_user (req : Request) (w : World) : IUser :=
  {| _id := newObjectId S (clock w) (users w);
     email := normalize_email (str (req_email req));
     name := str (req_name req);
     password := Some (bcrypt_hash S (str (req_password req)));
     createdAt := toISOString S (clock w) |}.

(** The presence check of [register] passes. *)
Definition all_present (req : Request) : bool :=
  truthy (req_email req) && truthy (req_password req) && truthy (req_name req).

(** The world once [register] has looked the email up and written the new
    document. *)
Definition after_save (req : Request) (w : World) : World :=
  let w1 := record (FindOne (str (req_email req))) (record Connect w) in
  record (Save (new_user req w)) (insert (new_user req w) w1).

(** [register] goes as far as writing a document: the database answers, the
    three fields are there, [findOne] finds no user with the email, the
    validators pass and no stored record has the normalised email. *)
Definition creates (req : Request) (w : World) : bool :=
  reachable w && all_present req
  && match find (fun x => String.eqb (email x) (str (req_email req))) (users w) with
     | None => true
     | Some _ => false
     end
  && match validate S (str (req_email req)) (str (req_password req))
                    (str (req_name req)) with
     | [] => true
     | _ :: _ => false
     end
  && negb (email_taken (str (req_email req)) (users w)).

(** The presence check of [login] passes. *)
Definition login_present (req : Request) : bool :=
  truthy (req_email req) && truthy (req_password req).

(** The world once the email has been looked up. *)
Definition after_findOne (req : Request) (w : World) : World :=
  record (FindOne (str (req_email req))) (record Connect w).

(** The body of a successful [getProfile]. *)
Definition profile_body (user : IUser) : json :=
  JObj [("success", JBool true);
        ("user",
         JObj [("id", JStr (_id user));
               ("email", JStr (email user));
               ("name", JStr (name user));
               ("createdAt", JStr (createdAt user))])].

(** The world once [getProfile] has made its query. *)
Definition after_findById (req : Request) (w : World) : World :=
  record (FindById (option_map userId (req_user req))) (record Connect w).

(** A body field that is missing or the empty string. *)
Definition absent_or_empty (v : jsstring) : Prop := v = None \/ v = Some "".





End Notions.

(* ================================================================= *)
(** ** A reference instance of the two libraries

    A small token format and a small schema, to run the server on concrete
    requests.  A token spells out, bit by bit, the three claims, the secret it
    was made with and its expiry; [ref_verify] reads them back. *)

Module Ref.

Definition bit (b : bool) : ascii := if b then "1"%char else "0"%char.

Definition unbit (c : ascii) : option bool :=
  if Ascii.eqb c "1" then Some true
  else if Ascii.eqb c "0" then Some false
  else None.

(** A string, eight characters per byte, closed by a dot; [k] follows. *)
Fixpoint enc_str (s : string) (k : string) : string :=
  match s with
  | EmptyString => String "." k
  | String (Ascii b0 b1 b2 b3 b4 b5 b6 b7) r =>
      String (bit b0) (String (bit b1) (String (bit b2) (String (bit b3)
      (String (bit b4) (String (bit b5) (String (bit b6) (String (bit b7)
      (enc_str r k))))))))
  end.

Fixpoint dec_str (s : string) : option (string * string) :=
  match s with
  | EmptyString => None
  | String c0 r0 =>
      if Ascii.eqb c0 "." then Some (EmptyString, r0)
      else
        match r0 with
        | String c1 (String c2 (String c3 (String c4 (String c5 (String c6
            (String c7 rest)))))) =>
            match unbit c0, unbit c1, unbit c2, unbit c3,
                  unbit c4, unbit c5, unbit c6, unbit c7, dec_str rest with
            | Some b0, Some b1, Some b2, Some b3,
              Some b4, Some b5, Some b6, Some b7, Some (r, k) =>
                Some (String (Ascii b0 b1 b2 b3 b4 b5 b6 b7) r, k)
            | _, _, _, _, _, _, _, _, _ => None
            end
        | _ => None
        end
  end.

Fixpoint enc_pos (p : positive) (k : string) : string :=
  match p with
  | xI q => String "I" (enc_pos q k)
  | xO q => String "O" (enc_pos q k)
  | xH => String "H" k
  end.

Fixpoint dec_pos (s : string) : option (positive * string) :=
  match s with
  | EmptyString => None
  | String c r =>
      if Ascii.eqb c "H" then Some (xH, r)
      else if Ascii.eqb c "I" then
        match dec_pos r with Some (q, k) => Some (xI q, k) | None => None end
      else if Ascii.eqb c "O" then
        match dec_pos r with Some (q, k) => Some (xO q, k) | None => None end
      else None
  end.

Definition enc_Z (z : Z) (k : string) : string :=
  match z with
  | Z0 => String "Z" k
  | Zpos p => String "P" (enc_pos p k)
  | Zneg p => String "N" (enc_pos p k)
  end.

Definition dec_Z (s : string) : option (Z * string) :=
  match s with
  | EmptyString => None
  | String c r =>
      if Ascii.eqb c "Z" then Some (0, r)
      else if Ascii.eqb c "P" then
        match dec_pos r with Some (q, k) => Some (Zpos q, k) | None => None end
      else if Ascii.eqb c "N" then
        match dec_pos r with Some (q, k) => Some (Zneg q, k) | None => None end
      else None
  end.

(** The content of a token: claims, signing secret, expiry. *)
Definition encode (p : JWTPayload) (secret : string) (exp : Z) : string :=
  enc_str (userId p) (enc_str (p_email p) (enc_str (p_name p)
    (enc_str secret (enc_Z exp EmptyString)))).

Definition decode (tok : string) : option (JWTPayload * string * Z) :=
  match dec_str tok with
  | Some (uid, k1) =>
      match dec_str k1 with
      | Some (em, k2) =>
          match dec_str k2 with
          | Some (nm, k3) =>
              match dec_str k3 with
              | Some (sec, k4) =>
                  match dec_Z k4 with
                  | Some (exp, EmptyString) => Some (mkPayload uid em nm, sec, exp)
                  | _ => None
                  end
              | None => None
              end
          | None => None
          end
      | None => None
      end
  | None => None
  end.

Definition digit (c : ascii) : option Z :=
  let n := Z.of_nat (nat_of_ascii c) in
  if (48 <=? n) && (n <=? 57) then Some (n - 48) else None.

Definition unit_seconds (c : ascii) : option Z :=
  if Ascii.eqb c "s" then Some 1
  else if Ascii.eqb c "m" then Some 60
  else if Ascii.eqb c "h" then Some 3600
  else if Ascii.eqb c "d" then Some 86400
  else None.

Fixpoint span (acc : Z) (s : string) : option Z :=
  match s with
  | EmptyString => None
  | String c EmptyString => option_map (Z.mul acc) (unit_seconds c)
  | String c r =>
      match digit c with
      | Some d => span (10 * acc + d) r
      | None => None
      end
  end.

(** Digits followed by one of [s], [m], [h], [d]. *)
Definition ref_timespan (s : string) : option Z :=
  match s with
  | String c r =>
      match digit c with
      | Some d => span d r
      | None => None
      end
  | EmptyString => None
  end.

Definition ref_sign (p : JWTPayload) (secret expiresIn : string) (now : Z)
  : Result string :=
  if String.eqb secret "" then
    Throw (Error "secretOrPrivateKey must have a value")
  else
    match ref_timespan expiresIn with
    | Some ttl => Ok (encode p secret (now + ttl))
    | None => Throw (Error "expiresIn should be a number of seconds or string representing a timespan")
    end.

Definition ref_verify (tok secret : string) (now : Z) : Result JWTPayload :=
  match decode tok with
  | None => Throw (JsonWebTokenError "jwt malformed")
  | Some (p, sec, exp) =>
      if negb (String.eqb sec secret) then
        Throw (JsonWebTokenError "invalid signature")
      else if exp <=? now then Throw TokenExpiredError
      else Ok p
  end.

Lemma unbit_bit (b : bool) : unbit (bit b) = Some b.
Proof. destruct b; reflexivity. Qed.

Lemma bit_not_dot (b : bool) : Ascii.eqb (bit b) "." = false.
Proof. destruct b; reflexivity. Qed.

Lemma dec_enc_str (s k : string) : dec_str (enc_str s k) = Some (s, k).
Proof.
  induction s as [|a r IH]; [reflexivity|].
  destruct a as [b0 b1 b2 b3 b4 b5 b6 b7].
  cbn [enc_str dec_str].
  rewrite bit_not_dot, !unbit_bit, IH.
  reflexivity.
Qed.

Lemma dec_enc_pos (p : positive) (k : string) : dec_pos (enc_pos p k) = Some (p, k).
Proof.
  induction p as [q IH|q IH|]; cbn [enc_pos dec_pos]; cbn [Ascii.eqb Bool.eqb];
    try rewrite IH; reflexivity.
Qed.

Lemma dec_enc_Z (z : Z) (k : string) : dec_Z (enc_Z z k) = Some (z, k).
Proof.
  destruct z; cbn [enc_Z dec_Z]; cbn [Ascii.eqb Bool.eqb];
    try rewrite dec_enc_pos; reflexivity.
Qed.

Lemma decode_encode (p : JWTPayload) (secret : string) (exp : Z) :
  decode (encode p secret exp) = Some (p, secret, exp).
Proof.
  unfold decode, encode.
  rewrite !dec_enc_str, dec_enc_Z.
  destruct p; reflexivity.
Qed.

Lemma ref_sign_returns (p : JWTPayload) (s e : string) (now ttl : Z) :
  s <> "" -> ref_timespan e = Some ttl -> exists tok, ref_sign p s e now = Ok tok.
Proof.
  intros Hs He. unfold ref_sign.
  destruct (String.eqb_spec s "") as [E|_]; [contradiction|].
  rewrite He. eexists; reflexivity.
Qed.

Lemma ref_verify_sign (p : JWTPayload) (s e : string) (iat ttl : Z)
      (tok : string) (now : Z) :
  ref_timespan e = Some ttl ->
  ref_sign p s e iat = Ok tok ->
  ref_verify tok s now =
    if now <? iat + ttl then Ok p else Throw TokenExpiredError.
Proof.
  intros He Hs. unfold ref_sign in Hs.
  destruct (String.eqb s ""); [discriminate|].
  rewrite He in Hs. injection Hs as <-.
  unfold ref_verify. rewrite decode_encode, String.eqb_refl. cbn [negb].
  rewrite Z.ltb_antisym. destruct (iat + ttl <=? now); reflexivity.
Qed.

Definition jwt : JwtLib :=
  {| jwt_sign := ref_sign;
     jwt_verify := ref_verify;
     timespan := ref_timespan;
     timespan_7d := eq_refl;
     sign_returns := ref_sign_returns;
     verify_sign := ref_verify_sign |}.

(** An example schema: a name of at least two characters, a password of at
    least six, an email with an [@]. *)
Definition ref_validate (e p n : string) : list string :=
  (if occurs "@" e then [] else ["Please enter a valid email"]) ++
  (if (String.length p <? 6)%nat then ["Password must be at least 6 characters"] else []) ++
  (if (String.length n <? 2)%nat then ["Name must be at least 2 characters"] else []).

Definition schema : UserSchema :=
  {| validate := ref_validate;
     bcrypt_hash := fun p => "$2b$10$" ++ p;
     bcrypt_compare := fun c h => String.eqb ("$2b$10$" ++ c) h;
     newObjectId := fun _ us => enc_Z (Z.of_nat (List.length us)) EmptyString;
     toISOString := fun now => enc_Z now EmptyString |}.

(** No variable set: the defaults of [jwt.ts] apply. *)
Definition default_env : Env :=
  {| env_JWT_SECRET := None; env_JWT_EXPIRE := None |}.

End Ref.

(* ================================================================= *)
(** ** Concrete data used by the examples *)

Definition alice : IUser :=
  {| _id := "65f0c0ffee"; email := "alice@example.com"; name := "Alice";
     password := Some "$2b$10$wonderland"; createdAt := "2024-03-12" |}.

Definition alice_claims : JWTPayload :=
  {| userId := "65f0c0ffee"; p_email := "alice@example.com"; p_name := "Alice" |}.

(** A reachable database holding [alice], at time 1000. *)
Definition w0 : World :=
  {| users := [alice]; reachable := true; clock := 1000; log := [] |}.

(** The token [generateToken] gives [alice] at time 1000 under the default
    configuration. *)
Definition alice_token : string :=
  Eval vm_compute in
    match generateToken Ref.jwt Ref.default_env alice 1000 with
    | Ok tok => tok
    | Throw _ => ""
    end.

Definition request (auth e p n : jsstring) : Request :=
  {| authorization := auth; req_email := e; req_password := p; req_name := n;
     req_user := None |}.

(* ================================================================= *)
(** ** Token service *)

Lemma js_or_nonempty (p : jsstring) (d : string) : d <> "" -> js_or p d <> "".
Proof.
  intros Hd. unfold js_or, truthy.
  destruct p as [s|]; [|exact Hd].
  destruct (String.eqb_spec s "") as [->|Hs]; cbn; [exact Hd|exact Hs].
Qed.

Lemma JWT_SECRET_nonempty (env : Env) : JWT_SECRET env <> "".
Proof. apply js_or_nonempty. discriminate. Qed.

Lemma JWT_EXPIRE_default (L : JwtLib) (env : Env) :
  truthy (env_JWT_EXPIRE env) = false ->
  timespan L (JWT_EXPIRE env) = Some 604800.
Proof.
  intros H. unfold JWT_EXPIRE, js_or. rewrite H. apply timespan_7d.
Qed.

(** With a readable [JWT_EXPIRE], [generateToken] returns a token. *)
Lemma generateToken_returns (L : JwtLib) (env : Env) (user : IUser) (now ttl : Z) :
  timespan L (JWT_EXPIRE env) = Some ttl ->
  exists tok, generateToken L env user now = Ok tok.
Proof.
  intros Httl. unfold generateToken.
  eapply sign_returns; [apply JWT_SECRET_nonempty|exact Httl].
Qed.

(** Whatever makes [jwt.verify] throw, [verifyToken] throws the same error. *)
Lemma verifyToken_throws (L : JwtLib) (env : Env) (tok : string) (now : Z) (e : JsError) :
  verifyToken L env tok now = Throw e -> e = Error "Invalid token".
Proof.
  unfold verifyToken.
  destruct (jwt_verify L tok (JWT_SECRET env) now); intros H; inversion H; reflexivity.
Qed.

(** C4 as stated fails: a token issued at time 1000 with the default seven
    days is refused at time 1000 + 604800, but the error [verifyToken] throws
    is [Error("Invalid token")], not [TokenExpiredError] (which is what
    [jwt.verify] threw inside). *)
Lemma verifyToken_expired_is_not_TokenExpired :
  generateToken Ref.jwt Ref.default_env alice 1000 = Ok alice_token /\
  jwt_verify Ref.jwt alice_token (JWT_SECRET Ref.default_env) 605800
    = Throw TokenExpiredError /\
  verifyToken Ref.jwt Ref.default_env alice_token 605800
    = Throw (Error "Invalid token") /\
  verifyToken Ref.jwt Ref.default_env alice_token 605800
    <> Throw TokenExpiredError.
Proof.
  repeat split; try (vm_compute; reflexivity).
  vm_compute. discriminate.
Qed.

(** C4, amended: a token issued for a user verifies to the claims
    [{userId, email, name}] of that user for as long as the clock is before
    issuance plus the configured time-to-live (seven days when [JWT_EXPIRE] is
    not set); from then on verification fails, with the same
    [Error("Invalid token")] as any other failure. *)
Theorem verifyToken_generateToken
        (L : JwtLib) (env : Env) (user : IUser) (iat ttl : Z) :
  timespan L (JWT_EXPIRE env) = Some ttl ->
  exists tok,
    generateToken L env user iat = Ok tok /\
    (truthy (env_JWT_EXPIRE env) = false -> ttl = 604800) /\
    forall now,
      (now < iat + ttl ->
       verifyToken L env tok now =
         Ok {| userId := _id user; p_email := email user; p_name := name user |}) /\
      (iat + ttl <= now ->
       verifyToken L env tok now = Throw (Error "Invalid token")).
Proof.
  intros Httl.
  destruct (generateToken_returns L env user iat ttl Httl) as [tok Htok].
  exists tok. split; [exact Htok|]. split.
  - intros Hdef. pose proof (JWT_EXPIRE_default L env Hdef) as H.
    rewrite Httl in H. now inversion H.
  - intros now. unfold verifyToken, generateToken in *.
    rewrite (verify_sign L _ _ _ _ _ _ now Httl Htok).
    split; intros Hnow.
    + apply Z.ltb_lt in Hnow. rewrite Hnow. reflexivity.
    + apply Z.ltb_ge in Hnow. rewrite Hnow. reflexivity.
Qed.

Lemma verifyToken_generateToken_witness :
  exists tok,
    generateToken Ref.jwt Ref.default_env alice 1000 = Ok tok /\
    (truthy (env_JWT_EXPIRE Ref.default_env) = false -> 604800 = 604800) /\
    forall now,
      (now < 1000 + 604800 ->
       verifyToken Ref.jwt Ref.default_env tok now =
         Ok {| userId := _id alice; p_email := email alice; p_name := name alice |}) /\
      (1000 + 604800 <= now ->
       verifyToken Ref.jwt Ref.default_env tok now = Throw (Error "Invalid token")).
Proof.
  apply (verifyToken_generateToken Ref.jwt Ref.default_env alice 1000).
  reflexivity.
Defined.

(** C5 as stated fails: an expired token and a string that is no token at all
    are refused by [jwt.verify] with two different errors, and by
    [verifyToken] with one and the same. *)
Lemma verifyToken_does_not_distinguish :
  jwt_verify Ref.jwt alice_token (JWT_SECRET Ref.default_env) 605800
    = Throw TokenExpiredError /\
  jwt_verify Ref.jwt "not.a.token" (JWT_SECRET Ref.default_env) 605800
    = Throw (JsonWebTokenError "jwt malformed") /\
  verifyToken Ref.jwt Ref.default_env alice_token 605800
    = verifyToken Ref.jwt Ref.default_env "not.a.token" 605800.
Proof. repeat split; vm_compute; reflexivity. Qed.

(** C5, amended: [verifyToken] has a single failure.  It returns the decoded
    claims exactly when [jwt.verify] returns them, and whenever [jwt.verify]
    throws (a signature that does not validate, a malformed token, an expired
    one) it throws [Error("Invalid token")], so the cause cannot be told from
    the error. *)
Theorem verifyToken_single_failure (L : JwtLib) (env : Env) (tok : string) (now : Z) :
  match jwt_verify L tok (JWT_SECRET env) now with
  | Ok claims => verifyToken L env tok now = Ok claims
  | Throw _ => verifyToken L env tok now = Throw (Error "Invalid token")
  end /\
  (forall tok' now' e e',
      verifyToken L env tok now = Throw e ->
      verifyToken L env tok' now' = Throw e' ->
      e = e').
Proof.
  split.
  - unfold verifyToken.
    destruct (jwt_verify L tok (JWT_SECRET env) now); reflexivity.
  - intros tok' now' e e' H H'.
    apply verifyToken_throws in H. apply verifyToken_throws in H'.
    congruence.
Qed.

(* ================================================================= *)
(** ** Auth middleware *)

Lemma split_no_separator (sep : ascii) (s : string) :
  occurs sep s = false -> split sep s = [s].
Proof.
  induction s as [|c r IH]; cbn [occurs split]; [reflexivity|].
  intros H. apply orb_false_iff in H as [Hc Hr].
  rewrite Hc, (IH Hr). reflexivity.
Qed.

Lemma split_at_first (sep : ascii) (a b : string) :
  occurs sep a = false ->
  split sep (a ++ String sep b) = a :: split sep b.
Proof.
  induction a as [|c r IH]; cbn [occurs split append].
  - intros _. rewrite Ascii.eqb_refl. reflexivity.
  - intros H. apply orb_false_iff in H as [Hc Hr].
    rewrite Hc, (IH Hr). reflexivity.
Qed.

Lemma truthy_Some (s : string) : s <> "" -> truthy (Some s) = true.
Proof.
  intros H. unfold truthy. destruct (String.eqb_spec s ""); [contradiction|reflexivity].
Qed.

(** A header [<word> <token>]: the token is the part after the first space,
    whatever the word. *)
Lemma header_token_scheme (word tok : string) :
  occurs " " word = false -> occurs " " tok = false ->
  header_token (Some (word ++ " " ++ tok)) = Some tok.
Proof.
  intros Hw Ht. unfold header_token, js_and.
  rewrite truthy_Some by (destruct word; discriminate).
  cbn [str]. change (" " ++ tok) with (String " " tok).
  rewrite (split_at_first _ _ _ Hw), (split_no_separator _ _ Ht).
  reflexivity.
Qed.

(** A header without a space has no second part. *)
Lemma header_token_one_part (h : string) :
  occurs " " h = false -> truthy (header_token (Some h)) = false.
Proof.
  intros Hh. unfold header_token, js_and.
  destruct (truthy (Some h)) eqn:E; [|exact E].
  cbn [str]. rewrite (split_no_separator _ _ Hh). reflexivity.
Qed.

Lemma authenticateToken_no_token L env req next w :
  truthy (header_token (authorization req)) = false ->
  authenticateToken L env req next w = (failure 401 "Access token required", w).
Proof. intros H. unfold authenticateToken. rewrite H. reflexivity. Qed.

Lemma authenticateToken_rejected L env req next w e :
  truthy (header_token (authorization req)) = true ->
  verifyToken L env (str (header_token (authorization req))) (clock w) = Throw e ->
  authenticateToken L env req next w =
    (failure 403 "Invalid or expired token",
     record (Verify (str (header_token (authorization req)))) w).
Proof. intros H Hv. unfold authenticateToken. rewrite H, Hv. reflexivity. Qed.

Lemma authenticateToken_accepted L env req next w claims :
  truthy (header_token (authorization req)) = true ->
  verifyToken L env (str (header_token (authorization req))) (clock w) = Ok claims ->
  authenticateToken L env req next w =
    next (set_user req claims)
         (record Next (record (Verify (str (header_token (authorization req)))) w)).
Proof. intros H Hv. unfold authenticateToken. rewrite H, Hv. reflexivity. Qed.

(** C2: on a request to the protected endpoint, with [token] what the
    middleware reads off the [Authorization] header:
    - no token: the answer is 401 and the world is untouched, so
      [verifyToken] was not called (nor was [next]);
    - a token that [verifyToken] refuses: the answer is 403, the only call
      made is that verification, and [next] is not called;
    - a token that verifies: the decoded claims are stored in [req.user] and
      the downstream handler runs on that request, after the verification. *)
Theorem authenticateToken_gate
        (L : JwtLib) (env : Env) (req : Request) (next : Handler) (w : World) :
  let token := header_token (authorization req) in
  (truthy token = false ->
   authenticateToken L env req next w
     = (failure 401 "Access token required", w)) /\
  (truthy token = true ->
   forall e, verifyToken L env (str token) (clock w) = Throw e ->
   authenticateToken L env req next w
     = (failure 403 "Invalid or expired token", record (Verify (str token)) w)) /\
  (truthy token = true ->
   forall claims, verifyToken L env (str token) (clock w) = Ok claims ->
   req_user (set_user req claims) = Some claims /\
   authenticateToken L env req next w
     = next (set_user req claims) (record Next (record (Verify (str token)) w))).
Proof.
  cbv zeta. split; [|split].
  - apply authenticateToken_no_token.
  - intros H e Hv. eapply authenticateToken_rejected; eassumption.
  - intros H claims Hv. split; [reflexivity|].
    apply authenticateToken_accepted; assumption.
Qed.

(** C10: the middleware never looks at the scheme word.  Whatever the word
    before the first space, a header [<word> <token>] whose token verifies is
    accepted: the claims are attached and the downstream handler runs.  A
    header that has no space in it (a bare token, a lone scheme word) has no
    second part: it is answered 401 like a missing header, not 403, and
    nothing is verified. *)
Theorem authenticateToken_ignores_scheme
        (L : JwtLib) (env : Env) (req : Request) (next : Handler) (w : World) :
  (forall word tok claims,
      occurs " " word = false -> occurs " " tok = false -> tok <> "" ->
      authorization req = Some (word ++ " " ++ tok) ->
      verifyToken L env tok (clock w) = Ok claims ->
      authenticateToken L env req next w
        = next (set_user req claims) (record Next (record (Verify tok) w))) /\
  (forall h,
      authorization req = Some h -> occurs " " h = false ->
      authenticateToken L env req next w
        = (failure 401 "Access token required", w)).
Proof.
  split.
  - intros word tok claims Hw Ht Hne Hreq Hv.
    pose proof (header_token_scheme word tok Hw Ht) as Htok.
    rewrite <- Hreq in Htok.
    rewrite (authenticateToken_accepted L env req next w claims);
      rewrite Htok; cbn [str]; auto using truthy_Some.
  - intros h Hreq Hh. apply authenticateToken_no_token.
    rewrite Hreq. apply header_token_one_part, Hh.
Qed.

(* ================================================================= *)
(** ** Handlers: one lemma per path through each handler *)

Section Paths.
Variable L : JwtLib.
Variable env : Env.
Variable S : UserSchema.

Lemma find_email_present (us : list IUser) (u : IUser) :
  In u us ->
  exists u', find (fun x => String.eqb (email x) (email u)) us = Some u'.
Proof.
  intros Hin.
  destruct (find (fun x => String.eqb (email x) (email u)) us) as [u'|] eqn:E.
  - exists u'. reflexivity.
  - pose proof (find_none _ _ E u Hin) as H. cbn in H.
    rewrite String.eqb_refl in H. discriminate.
Qed.

Lemma absent_guard (req : Request) :
  negb (truthy (req_email req)) || negb (truthy (req_password req))
    || negb (truthy (req_name req)) = negb (all_present req).
Proof.
  unfold all_present.
  destruct (truthy (req_email req)), (truthy (req_password req)),
    (truthy (req_name req)); reflexivity.
Qed.

Lemma register_unreachable req w :
  reachable w = false ->
  register L env S req w = (failure 500 "Internal server error", w).
Proof. intros H. unfold register, handle, bind, connectDB. rewrite H. reflexivity. Qed.

Lemma register_absent req w :
  reachable w = true -> all_present req = false ->
  register L env S req w
    = (failure 400 "Email, password, and name are required", record Connect w).
Proof.
  intros Hr Ha. unfold register, handle, bind, connectDB.
  rewrite Hr, absent_guard, Ha. reflexivity.
Qed.

Lemma register_existing req w u :
  reachable w = true -> all_present req = true ->
  find (fun x => String.eqb (email x) (str (req_email req))) (users w) = Some u ->
  register L env S req w
    = (failure 400 "User with this email already exists",
       record (FindOne (str (req_email req))) (record Connect w)).
Proof.
  intros Hr Ha Hf. unfold register, handle, bind, connectDB, User_findOne.
  rewrite Hr, absent_guard, Ha. cbn [negb users record]. rewrite Hf. reflexivity.
Qed.

Lemma register_invalid req w m ms :
  reachable w = true -> all_present req = true ->
  find (fun x => String.eqb (email x) (str (req_email req))) (users w) = None ->
  validate S (str (req_email req)) (str (req_password req)) (str (req_name req))
    = m :: ms ->
  register L env S req w
    = (mkResponse 400
         (JObj [("success", JBool false);
                ("message", JStr "Validation failed");
                ("errors", JArr (map JStr (m :: ms)))]),
       record (FindOne (str (req_email req))) (record Connect w)).
Proof.
  intros Hr Ha Hf Hv.
  unfold register, handle, bind, connectDB, User_findOne, User_save.
  rewrite Hr, absent_guard, Ha. cbn [negb users record]. rewrite Hf, Hv.
  reflexivity.
Qed.

Lemma register_duplicate req w :
  reachable w = true -> all_present req = true ->
  find (fun x => String.eqb (email x) (str (req_email req))) (users w) = None ->
  validate S (str (req_email req)) (str (req_password req)) (str (req_name req))
    = [] ->
  email_taken (str (req_email req)) (users w) = true ->
  register L env S req w
    = (failure 500 "Internal server error",
       record (FindOne (str (req_email req))) (record Connect w)).
Proof.
  intros Hr Ha Hf Hv Ht.
  unfold register, handle, bind, connectDB, User_findOne, User_save.
  rewrite Hr, absent_guard, Ha. cbn [negb users record]. rewrite Hf, Hv.
  cbn [users record]. rewrite Ht. reflexivity.
Qed.

Lemma register_written req w :
  reachable w = true -> all_present req = true ->
  find (fun x => String.eqb (email x) (str (req_email req))) (users w) = None ->
  validate S (str (req_email req)) (str (req_password req)) (str (req_name req))
    = [] ->
  email_taken (str (req_email req)) (users w) = false ->
  register L env S req w
    = match generateToken L env (new_user S req w) (clock w) with
      | Ok token =>
          (mkResponse 201
             (JObj [("success", JBool true);
                    ("message", JStr "User registered successfully");
                    ("token", JStr token);
                    ("user", public_user (new_user S req w))]),
           after_save S req w)
      | Throw error => (register_catch error, after_save S req w)
      end.
Proof.
  intros Hr Ha Hf Hv Ht.
  unfold register, handle, bind, connectDB, User_findOne, User_save, issue, lift.
  rewrite Hr, absent_guard, Ha. cbn [negb users record clock]. rewrite Hf, Hv.
  cbn [users record]. rewrite Ht.
  cbn [insert record clock users].
  fold (new_user S req w).
  destruct (generateToken L env (new_user S req w) (clock w)); reflexivity.
Qed.

Lemma login_guard (req : Request) :
  negb (truthy (req_email req)) || negb (truthy (req_password req))
    = negb (login_present req).
Proof.
  unfold login_present.
  destruct (truthy (req_email req)), (truthy (req_password req)); reflexivity.
Qed.

Lemma login_unreachable req w :
  reachable w = false ->
  login L env S req w = (failure 500 "Internal server error", w).
Proof. intros H. unfold login, handle, bind, connectDB. rewrite H. reflexivity. Qed.

Lemma login_absent req w :
  reachable w = true -> login_present req = false ->
  login L env S req w
    = (failure 400 "Email and password are required", record Connect w).
Proof.
  intros Hr Ha. unfold login, handle, bind, connectDB.
  rewrite Hr, login_guard, Ha. reflexivity.
Qed.

Lemma login_unknown req w :
  reachable w = true -> login_present req = true ->
  find (fun x => String.eqb (email x) (str (req_email req))) (users w) = None ->
  login L env S req w
    = (failure 400 "Invalid email or password", after_findOne req w).
Proof.
  intros Hr Ha Hf. unfold login, handle, bind, connectDB, User_findOne.
  rewrite Hr, login_guard, Ha. cbn [negb users record]. rewrite Hf. reflexivity.
Qed.

Lemma login_found req w user :
  reachable w = true -> login_present req = true ->
  find (fun x => String.eqb (email x) (str (req_email req))) (users w) = Some user ->
  login L env S req w
    = match password user with
      | None => (failure 500 "Internal server error", after_findOne req w)
      | Some h =>
          if bcrypt_compare S (str (req_password req)) h then
            match generateToken L env user (clock w) with
            | Ok token =>
                (res_json
                   (JObj [("success", JBool true);
                          ("message", JStr "Login successful");
                          ("token", JStr token);
                          ("user", public_user user)]),
                 after_findOne req w)
            | Throw _ => (failure 500 "Internal server error", after_findOne req w)
            end
          else (failure 400 "Invalid email or password", after_findOne req w)
      end.
Proof.
  intros Hr Ha Hf.
  unfold login, handle, bind, connectDB, User_findOne, comparePassword, issue, lift.
  rewrite Hr, login_guard, Ha. cbn [negb users record]. rewrite Hf.
  destruct (password user) as [h|]; [|reflexivity].
  unfold ret. destruct (bcrypt_compare S (str (req_password req)) h); [|reflexivity].
  cbn [negb record clock].
  destruct (generateToken L env user (clock w)); reflexivity.
Qed.

Lemma getProfile_unreachable req w :
  reachable w = false ->
  getProfile req w = (failure 500 "Internal server error", w).
Proof. intros H. unfold getProfile, handle, bind, connectDB. rewrite H. reflexivity. Qed.

Lemma getProfile_reachable req w :
  reachable w = true ->
  getProfile req w
    = match lookup_id (option_map userId (req_user req)) (users w) with
      | None => (failure 404 "User not found", after_findById req w)
      | Some user => (res_json (profile_body user), after_findById req w)
      end.
Proof.
  intros Hr. unfold getProfile, handle, bind, connectDB, User_findById_select.
  rewrite Hr. cbn [users record].
  destruct (lookup_id (option_map userId (req_user req)) (users w)); reflexivity.
Qed.

End Paths.

(* ================================================================= *)
(** ** Login *)

(** C3: two well-formed login requests, one for an email no stored user has,
    one for a stored user with a password that does not match the stored
    hash, get the same answer: status 400 and the body
    [{success: false, message: "Invalid email or password"}]. *)
Theorem login_failures_indistinguishable
        (L : JwtLib) (env : Env) (S : UserSchema)
        (req1 req2 : Request) (w1 w2 : World) (user : IUser) (h : string) :
  reachable w1 = true -> reachable w2 = true ->
  login_present req1 = true -> login_present req2 = true ->
  find (fun x => String.eqb (email x) (str (req_email req1))) (users w1) = None ->
  find (fun x => String.eqb (email x) (str (req_email req2))) (users w2) = Some user ->
  password user = Some h ->
  bcrypt_compare S (str (req_password req2)) h = false ->
  fst (login L env S req1 w1) = fst (login L env S req2 w2) /\
  fst (login L env S req1 w1)
    = mkResponse 400 (JObj [("success", JBool false);
                            ("message", JStr "Invalid email or password")]).
Proof.
  intros Hr1 Hr2 Hp1 Hp2 Hnone Hsome Hh Hcmp.
  rewrite (login_unknown L env S req1 w1 Hr1 Hp1 Hnone).
  rewrite (login_found L env S req2 w2 user Hr2 Hp2 Hsome), Hh, Hcmp.
  split; reflexivity.
Qed.

Lemma login_failures_indistinguishable_witness :
  let unknown := request None (Some "bob@example.com") (Some "hunter2") None in
  let wrong := request None (Some "alice@example.com") (Some "rabbit") None in
  fst (login Ref.jwt Ref.default_env Ref.schema unknown w0)
    = fst (login Ref.jwt Ref.default_env Ref.schema wrong w0) /\
  fst (login Ref.jwt Ref.default_env Ref.schema unknown w0)
    = mkResponse 400 (JObj [("success", JBool false);
                            ("message", JStr "Invalid email or password")]).
Proof.
  apply (login_failures_indistinguishable Ref.jwt Ref.default_env Ref.schema
           (request None (Some "bob@example.com") (Some "hunter2") None)
           (request None (Some "alice@example.com") (Some "rabbit") None)
           w0 w0 alice "$2b$10$wonderland");
    reflexivity.
Defined.

(* ================================================================= *)
(** ** Register *)

Lemma truthy_false (v : jsstring) : absent_or_empty v <-> truthy v = false.
Proof.
  unfold absent_or_empty, truthy. split.
  - intros [-> | ->]; reflexivity.
  - destruct v as [s|]; [|auto].
    destruct (String.eqb_spec s "") as [->|]; [auto|discriminate].
Qed.

Lemma all_present_false (req : Request) :
  absent_or_empty (req_email req) \/ absent_or_empty (req_password req)
    \/ absent_or_empty (req_name req) ->
  all_present req = false.
Proof.
  unfold all_present. rewrite !truthy_false.
  intros [-> | [-> | ->]]; rewrite ?andb_false_r; reflexivity.
Qed.

(** C6 as stated fails: a request that names the email of the stored user
    [alice] but carries no password is answered 400 with
    ["Email, password, and name are required"], not with
    ["User with this email already exists"]; the presence check comes first. *)
Lemma register_duplicate_without_password :
  let req := request None (Some "alice@example.com") None (Some "Alice") in
  In alice (users w0) /\
  req_email req = Some (email alice) /\
  fst (register Ref.jwt Ref.default_env Ref.schema req w0)
    = failure 400 "Email, password, and name are required" /\
  fst (register Ref.jwt Ref.default_env Ref.schema req w0)
    <> failure 400 "User with this email already exists".
Proof.
  cbv zeta. split; [left; reflexivity|]. split; [reflexivity|].
  split; [reflexivity|]. vm_compute. discriminate.
Qed.

(** C6, amended: for every register request that carries a non-empty email,
    password and name, and whose email is the email of a user in the store
    (the database being reachable), the answer is 400 with the body
    [{success: false, message: "User with this email already exists"}]; the
    users collection is unchanged and the only store call was the
    [findOne]. *)
Theorem register_duplicate_email
        (L : JwtLib) (env : Env) (S : UserSchema)
        (req : Request) (w : World) (user : IUser) :
  reachable w = true ->
  all_present req = true ->
  In user (users w) ->
  req_email req = Some (email user) ->
  fst (register L env S req w)
    = mkResponse 400 (JObj [("success", JBool false);
                            ("message", JStr "User with this email already exists")]) /\
  users (snd (register L env S req w)) = users w /\
  log (snd (register L env S req w)) = FindOne (email user) :: Connect :: log w.
Proof.
  intros Hr Ha Hin He.
  destruct (find_email_present _ _ Hin) as [u' Hf].
  assert (Hs : str (req_email req) = email user) by (rewrite He; reflexivity).
  rewrite <- Hs in Hf.
  rewrite (register_existing L env S req w u' Hr Ha Hf), Hs.
  repeat split.
Qed.

Lemma register_duplicate_email_witness :
  let req := request None (Some "alice@example.com") (Some "looking-glass")
                     (Some "Alice L.") in
  fst (register Ref.jwt Ref.default_env Ref.schema req w0)
    = mkResponse 400 (JObj [("success", JBool false);
                            ("message", JStr "User with this email already exists")]) /\
  users (snd (register Ref.jwt Ref.default_env Ref.schema req w0)) = users w0 /\
  log (snd (register Ref.jwt Ref.default_env Ref.schema req w0))
    = FindOne (email alice) :: Connect :: log w0.
Proof.
  apply (register_duplicate_email Ref.jwt Ref.default_env Ref.schema
           (request None (Some "alice@example.com") (Some "looking-glass")
                    (Some "Alice L."))
           w0 alice).
  - reflexivity.
  - reflexivity.
  - left; reflexivity.
  - reflexivity.
Defined.

(** C7 as stated fails, twice.  [connectDB] is awaited before the presence
    check: with the database down, a request without a name is answered 500,
    not 400.  And [generateToken] runs after the save: with a [JWT_EXPIRE]
    that is no time span, creation succeeds (the document is written) and the
    answer is 500, not 201. *)
Lemma register_500_on_both_halves :
  let down := mkWorld [alice] false 1000 [] in
  let nameless := request None (Some "john@example.com") (Some "password123")
                          (Some "") in
  let newcomer := request None (Some "john@example.com") (Some "password123")
                          (Some "John Doe") in
  let soon := {| env_JWT_SECRET := None; env_JWT_EXPIRE := Some "soon" |} in
  (absent_or_empty (req_name nameless) /\
   status (fst (register Ref.jwt Ref.default_env Ref.schema nameless down)) = 500) /\
  (creates Ref.schema newcomer w0 = true /\
   users (snd (register Ref.jwt soon Ref.schema newcomer w0))
     = (users w0 ++ [new_user Ref.schema newcomer w0])%list /\
   status (fst (register Ref.jwt soon Ref.schema newcomer w0)) = 500).
Proof.
  cbv zeta. split; [split; [right; reflexivity|reflexivity]|].
  split; [reflexivity|]. split; reflexivity.
Qed.

(** C7, amended.  A register request in which the email, the password or the
    name is absent or empty never reaches the store: the users are unchanged
    and no query or write is made; once the connection is established the
    answer is 400 (the only call is the connection), and when the connection
    fails it is 500.  A register request on which creation succeeds (the
    database answers, the three fields are present, no user has the email,
    the validators and the uniqueness test pass) has its document appended to
    the users; whenever [jwt.sign] then returns a token for the claims
    [{userId, email, name}] of the new document, the answer is 201 with that
    very token, which verifies to those claims until it expires, and with the
    [id], [email] and [name] of the document.  [jwt.sign] does return one
    whenever [JWT_EXPIRE] is readable. *)
Theorem register_validates_then_creates
        (L : JwtLib) (env : Env) (S : UserSchema) (req : Request) (w : World) :
  (absent_or_empty (req_email req) \/ absent_or_empty (req_password req)
     \/ absent_or_empty (req_name req) ->
   users (snd (register L env S req w)) = users w /\
   (reachable w = true ->
    status (fst (register L env S req w)) = 400 /\
    snd (register L env S req w) = record Connect w) /\
   (reachable w = false ->
    register L env S req w = (failure 500 "Internal server error", w))) /\
  (creates S req w = true ->
   users (snd (register L env S req w)) = (users w ++ [new_user S req w])%list /\
   (forall token,
      jwt_sign L {| userId := _id (new_user S req w);
                    p_email := email (new_user S req w);
                    p_name := name (new_user S req w) |}
               (JWT_SECRET env) (JWT_EXPIRE env) (clock w) = Ok token ->
      fst (register L env S req w)
        = mkResponse 201
            (JObj [("success", JBool true);
                   ("message", JStr "User registered successfully");
                   ("token", JStr token);
                   ("user",
                    JObj [("id", JStr (_id (new_user S req w)));
                          ("email", JStr (email (new_user S req w)));
                          ("name", JStr (name (new_user S req w)))])]) /\
      (forall ttl now,
          timespan L (JWT_EXPIRE env) = Some ttl ->
          now < clock w + ttl ->
          verifyToken L env token now
            = Ok {| userId := _id (new_user S req w);
                    p_email := email (new_user S req w);
                    p_name := name (new_user S req w) |})) /\
   (forall ttl,
      timespan L (JWT_EXPIRE env) = Some ttl ->
      exists token,
        jwt_sign L {| userId := _id (new_user S req w);
                      p_email := email (new_user S req w);
                      p_name := name (new_user S req w) |}
                 (JWT_SECRET env) (JWT_EXPIRE env) (clock w) = Ok token)).
Proof.
  split.
  - intros Habs. apply all_present_false in Habs.
    destruct (reachable w) eqn:Hr.
    + rewrite (register_absent L env S req w Hr Habs).
      split; [reflexivity|]. split; [auto|discriminate].
    + rewrite (register_unreachable L env S req w Hr).
      split; [reflexivity|]. split; [discriminate|reflexivity].
  - intros Hc. unfold creates in Hc.
    apply andb_true_iff in Hc as [Hc Ht]. apply negb_true_iff in Ht.
    apply andb_true_iff in Hc as [Hc Hv]. apply andb_true_iff in Hc as [Hc Hf].
    apply andb_true_iff in Hc as [Hr Ha].
    destruct (find (fun x => String.eqb (email x) (str (req_email req))) (users w))
      eqn:Hf'; [discriminate|].
    destruct (validate S (str (req_email req)) (str (req_password req))
                       (str (req_name req))) eqn:Hv'; [|discriminate].
    rewrite (register_written L env S req w Hr Ha Hf' Hv' Ht).
    split; [|split].
    + destruct (generateToken L env (new_user S req w) (clock w)); reflexivity.
    + intros token Hsign.
      change (generateToken L env (new_user S req w) (clock w) = Ok token) in Hsign.
      rewrite Hsign. split; [reflexivity|].
      intros ttl now Httl Hnow. unfold verifyToken.
      rewrite (verify_sign L _ _ _ _ _ _ now Httl Hsign).
      apply Z.ltb_lt in Hnow. rewrite Hnow. reflexivity.
    + intros ttl Httl.
      exact (generateToken_returns L env (new_user S req w) (clock w) ttl Httl).
Qed.

Lemma register_validates_then_creates_witness :
  let incomplete := request None (Some "john@example.com") (Some "password123")
                            (Some "") in
  let newcomer := request None (Some "john@example.com") (Some "password123")
                          (Some "John Doe") in
  (status (fst (register Ref.jwt Ref.default_env Ref.schema incomplete w0)) = 400 /\
   snd (register Ref.jwt Ref.default_env Ref.schema incomplete w0)
     = record Connect w0) /\
  (exists token,
      fst (register Ref.jwt Ref.default_env Ref.schema newcomer w0)
        = mkResponse 201
            (JObj [("success", JBool true);
                   ("message", JStr "User registered successfully");
                   ("token", JStr token);
                   ("user",
                    JObj [("id", JStr (_id (new_user Ref.schema newcomer w0)));
                          ("email", JStr "john@example.com");
                          ("name", JStr "John Doe")])]) /\
      verifyToken Ref.jwt Ref.default_env token 2000
        = Ok {| userId := _id (new_user Ref.schema newcomer w0);
                p_email := "john@example.com";
                p_name := "John Doe" |}) /\
  users (snd (register Ref.jwt Ref.default_env Ref.schema newcomer w0))
    = (users w0 ++ [new_user Ref.schema newcomer w0])%list.
Proof.
  cbv zeta.
  pose proof (register_validates_then_creates Ref.jwt Ref.default_env Ref.schema
                (request None (Some "john@example.com") (Some "password123")
                         (Some "")) w0) as [Habsent _].
  pose proof (register_validates_then_creates Ref.jwt Ref.default_env Ref.schema
                (request None (Some "john@example.com") (Some "password123")
                         (Some "John Doe")) w0) as [_ Hcreates].
  destruct (Habsent (or_intror (or_intror (or_intror eq_refl)))) as (_ & H400 & _).
  destruct (Hcreates eq_refl) as (Husers & Hsigned & Hsigns).
  destruct (Hsigns 604800 eq_refl) as [token Htoken].
  destruct (Hsigned token Htoken) as [H201 Hverify].
  split; [exact (H400 eq_refl)|]. split; [|exact Husers].
  exists token. split; [exact H201|].
  apply (Hverify 604800 2000 eq_refl). reflexivity.
Defined.

(* ================================================================= *)
(** ** Profile and logout *)

Lemma lookup_id_In (i : string) (us : list IUser) (u : IUser) :
  lookup_id (Some i) us = Some u -> In u us /\ _id u = i.
Proof.
  cbn [lookup_id]. intros H. apply find_some in H as [Hin He].
  split; [exact Hin|]. apply String.eqb_eq, He.
Qed.

Lemma lookup_id_absent (i : string) (us : list IUser) :
  (forall u, In u us -> _id u <> i) -> lookup_id (Some i) us = None.
Proof.
  intros H. destruct (lookup_id (Some i) us) as [u|] eqn:E; [|reflexivity].
  apply lookup_id_In in E as [Hin He]. destruct (H u Hin He).
Qed.

Lemma lookup_id_present (i : string) (us : list IUser) (u : IUser) :
  In u us -> _id u = i -> exists u', lookup_id (Some i) us = Some u'.
Proof.
  intros Hin He. destruct (lookup_id (Some i) us) as [u'|] eqn:E.
  - exists u'. reflexivity.
  - cbn [lookup_id] in E. pose proof (find_none _ _ E u Hin) as H. cbn in H.
    rewrite He, String.eqb_refl in H. discriminate.
Qed.

(** C8: on a request that carries the claims the middleware attached (the
    database being reachable), [getProfile] queries the store by the [userId]
    claim, with the password excluded, and nothing else.  When no stored user
    has that id the answer is 404; when one has, the answer is 200 with the
    [id], [email], [name] and [createdAt] of a stored record with that id, and
    no password. *)
Theorem getProfile_by_userId (req : Request) (claims : JWTPayload) (w : World) :
  reachable w = true ->
  snd (getProfile (set_user req claims) w)
    = record (FindById (Some (userId claims))) (record Connect w) /\
  ((forall u, In u (users w) -> _id u <> userId claims) ->
   fst (getProfile (set_user req claims) w)
     = mkResponse 404 (JObj [("success", JBool false);
                             ("message", JStr "User not found")])) /\
  (forall u, In u (users w) -> _id u = userId claims ->
   exists user,
     In user (users w) /\ _id user = userId claims /\
     fst (getProfile (set_user req claims) w)
       = mkResponse 200
           (JObj [("success", JBool true);
                  ("user",
                   JObj [("id", JStr (_id user));
                         ("email", JStr (email user));
                         ("name", JStr (name user));
                         ("createdAt", JStr (createdAt user))])])).
Proof.
  intros Hr. rewrite (getProfile_reachable _ w Hr).
  cbn [set_user req_user option_map]. unfold after_findById.
  cbn [set_user req_user option_map]. split; [|split].
  - destruct (lookup_id (Some (userId claims)) (users w)); reflexivity.
  - intros Hnone. rewrite (lookup_id_absent _ _ Hnone). reflexivity.
  - intros u Hin He.
    destruct (lookup_id_present _ _ u Hin He) as [user Hl].
    rewrite Hl. destruct (lookup_id_In _ _ _ Hl) as [Hin' He'].
    exists user. repeat split; assumption.
Qed.

Lemma getProfile_by_userId_witness :
  let req := request (Some ("Bearer " ++ alice_token)) None None None in
  snd (getProfile (set_user req alice_claims) w0)
    = record (FindById (Some (userId alice_claims))) (record Connect w0) /\
  ((forall u, In u (users w0) -> _id u <> userId alice_claims) ->
   fst (getProfile (set_user req alice_claims) w0)
     = mkResponse 404 (JObj [("success", JBool false);
                             ("message", JStr "User not found")])) /\
  (forall u, In u (users w0) -> _id u = userId alice_claims ->
   exists user,
     In user (users w0) /\ _id user = userId alice_claims /\
     fst (getProfile (set_user req alice_claims) w0)
       = mkResponse 200
           (JObj [("success", JBool true);
                  ("user",
                   JObj [("id", JStr (_id user));
                         ("email", JStr (email user));
                         ("name", JStr (name user));
                         ("createdAt", JStr (createdAt user))])])).
Proof.
  apply (getProfile_by_userId
           (request (Some ("Bearer " ++ alice_token)) None None None)
           alice_claims w0).
  reflexivity.
Defined.

(** C9: whatever the request, [logout] answers 200 with
    [{success: true, message: "Logout successful"}] and leaves the world as it
    found it: the users collection is the same and no call to the store (or to
    anything else) was made. *)
Theorem logout_unconditional (req : Request) (w : World) :
  fst (logout req w)
    = mkResponse 200 (JObj [("success", JBool true);
                            ("message", JStr "Logout successful")]) /\
  snd (logout req w) = w /\
  users (snd (logout req w)) = users w /\
  log (snd (logout req w)) = log w /\
  (forall req', logout req' w = logout req w).
Proof.
  unfold logout. cbn [fst snd].
  repeat split.
Qed.

(* ================================================================= *)
(** ** What the responses show of the password *)

(** Case analysis along the paths of the handlers. *)

Ltac register_paths L env S req w :=
  let Hr := fresh "Hr" in
  let Ha := fresh "Ha" in
  let Hf := fresh "Hf" in
  let Hv := fresh "Hv" in
  let Ht := fresh "Ht" in
  let Hg := fresh "Hg" in
  destruct (reachable w) eqn:Hr;
  [ destruct (all_present req) eqn:Ha;
    [ destruct (find (fun x => String.eqb (email x) (str (req_email req))) (users w))
        as [?u|] eqn:Hf;
      [ rewrite ?(register_existing L env S req w _ Hr Ha Hf)
      | destruct (validate S (str (req_email req)) (str (req_password req))
                           (str (req_name req))) as [|?m ?ms] eqn:Hv;
        [ destruct (email_taken (str (req_email req)) (users w)) eqn:Ht;
          [ rewrite ?(register_duplicate L env S req w Hr Ha Hf Hv Ht)
          | rewrite ?(register_written L env S req w Hr Ha Hf Hv Ht);
            destruct (generateToken L env (new_user S req w) (clock w))
              as [?tok|?e] eqn:Hg ]
        | rewrite ?(register_invalid L env S req w _ _ Hr Ha Hf Hv) ] ]
    | rewrite ?(register_absent L env S req w Hr Ha) ]
  | rewrite ?(register_unreachable L env S req w Hr) ].

Ltac login_paths L env S req w :=
  let Hr := fresh "Hr" in
  let Ha := fresh "Ha" in
  let Hf := fresh "Hf" in
  let Hg := fresh "Hg" in
  destruct (reachable w) eqn:Hr;
  [ destruct (login_present req) eqn:Ha;
    [ destruct (find (fun x => String.eqb (email x) (str (req_email req))) (users w))
        as [?u|] eqn:Hf;
      [ rewrite ?(login_found L env S req w _ Hr Ha Hf);
        destruct (password _) as [?h|];
        [ destruct (bcrypt_compare S (str (req_password req)) _);
          [ destruct (generateToken L env _ (clock w)) as [?tok|?e] eqn:Hg | ]
        | ]
      | rewrite ?(login_unknown L env S req w Hr Ha Hf) ]
    | rewrite ?(login_absent L env S req w Hr Ha) ]
  | rewrite ?(login_unreachable L env S req w Hr) ].

Ltac getProfile_paths req w :=
  let Hr := fresh "Hr" in
  destruct (reachable w) eqn:Hr;
  [ rewrite ?(getProfile_reachable req w Hr);
    destruct (lookup_id (option_map userId (req_user req)) (users w)) as [?u|]
  | rewrite ?(getProfile_unreachable req w Hr) ].















Section Shapes.
Variable L : JwtLib.
Variable env : Env.
Variable S : UserSchema.











End Shapes.



(* ================================================================= *)
(** ** The server on concrete requests *)

(** [has_key] sees a field at any depth, and [split] cuts at every space. *)
Example has_key_nested :
  has_key "password"
          (JObj [("success", JBool true);
                 ("user", JObj [("id", JStr "1"); ("password", JStr "x")])])
    = true /\
  has_key "password" (body (res_json (profile_body alice))) = false.
Proof. split; reflexivity. Qed.

Example split_header :
  split " " "Bearer abc.def" = ["Bearer"; "abc.def"] /\
  split " " "Bearer  abc" = ["Bearer"; ""; "abc"] /\
  split " " "Bearer " = ["Bearer"; ""] /\
  split " " "" = [""] /\
  header_token (Some "Bearer  abc") = Some "" /\
  header_token (Some "") = Some "" /\
  header_token None = None.
Proof. repeat split. Qed.

(** A missing header, a lone scheme word and a bare token are answered 401;
    nothing is verified. *)
Example profile_without_token :
  profile_route Ref.jwt Ref.default_env (request None None None None) w0
    = (failure 401 "Access token required", w0) /\
  profile_route Ref.jwt Ref.default_env (request (Some "Bearer") None None None) w0
    = (failure 401 "Access token required", w0) /\
  profile_route Ref.jwt Ref.default_env (request (Some alice_token) None None None) w0
    = (failure 401 "Access token required", w0).
Proof. repeat split. Qed.

(** A token that does not verify is answered 403 and [getProfile] does not
    run; one that has expired gets the very same answer. *)
Example profile_with_bad_token :
  profile_route Ref.jwt Ref.default_env
                (request (Some "Bearer not.a.token") None None None) w0
    = (failure 403 "Invalid or expired token", record (Verify "not.a.token") w0) /\
  fst (profile_route Ref.jwt Ref.default_env
         (request (Some ("Bearer " ++ alice_token)) None None None)
         (mkWorld [alice] true 605800 []))
    = failure 403 "Invalid or expired token".
Proof. split; vm_compute; reflexivity. Qed.

(** With [alice]'s token the profile is served, under [Bearer] and under any
    other scheme word. *)
Example profile_with_token :
  fst (profile_route Ref.jwt Ref.default_env
         (request (Some ("Bearer " ++ alice_token)) None None None) w0)
    = res_json (profile_body alice) /\
  fst (profile_route Ref.jwt Ref.default_env
         (request (Some ("Basic " ++ alice_token)) None None None) w0)
    = res_json (profile_body alice) /\
  log (snd (profile_route Ref.jwt Ref.default_env
              (request (Some ("Basic " ++ alice_token)) None None None) w0))
    = [FindById (Some "65f0c0ffee"); Connect; Next; Verify alice_token].
Proof. repeat split; vm_compute; reflexivity. Qed.

(** Register, then fetch the profile with the token just issued. *)
Example register_then_profile :
  let john := request None (Some "john@example.com") (Some "password123")
                      (Some "John Doe") in
  let '(r, w1) := register Ref.jwt Ref.default_env Ref.schema john w0 in
  status r = 201 /\
  exists token,
    get "token" (body r) = Some (JStr token) /\
    let '(r', _) :=
      profile_route Ref.jwt Ref.default_env
                    (request (Some ("Bearer " ++ token)) None None None) w1 in
    status r' = 200 /\
    get "user" (body r')
      = Some (JObj [("id", JStr (_id (new_user Ref.schema john w0)));
                    ("email", JStr "john@example.com");
                    ("name", JStr "John Doe");
                    ("createdAt", JStr (createdAt (new_user Ref.schema john w0)))]).
Proof.
  vm_compute. split; [reflexivity|].
  eexists. split; [reflexivity|]. vm_compute. split; reflexivity.
Qed.

(** The email is stored trimmed and in lower case, and an email that differs
    from a stored one only by case or outer spaces is refused by the store
    when [save] runs. *)
Example register_normalises_email :
  let carol := request None (Some "  Carol@Example.COM ") (Some "password123")
                       (Some "Carol") in
  let alice' := request None (Some "Alice@Example.com") (Some "password123")
                        (Some "Alice") in
  map email (users (snd (register Ref.jwt Ref.default_env Ref.schema carol w0)))
    = ["alice@example.com"; "carol@example.com"] /\
  register Ref.jwt Ref.default_env Ref.schema alice' w0
    = (failure 500 "Internal server error",
       record (FindOne "Alice@Example.com") (record Connect w0)).
Proof. split; vm_compute; reflexivity. Qed.

(** An unreachable database turns every answer of the three store-backed
    handlers into a 500. *)
Example unreachable_database :
  let down := mkWorld [alice] false 1000 [] in
  let req := request None (Some "alice@example.com") (Some "wonderland") None in
  fst (register Ref.jwt Ref.default_env Ref.schema req down)
    = failure 500 "Internal server error" /\
  fst (login Ref.jwt Ref.default_env Ref.schema req down)
    = failure 500 "Internal server error" /\
  fst (getProfile (set_user req alice_claims) down)
    = failure 500 "Internal server error".
Proof. repeat split. Qed.

(** A correct password logs [alice] in. *)
Example login_alice :
  let req := request None (Some "alice@example.com") (Some "wonderland") None in
  fst (login Ref.jwt Ref.default_env Ref.schema req w0)
    = res_json (JObj [("success", JBool true);
                      ("message", JStr "Login successful");
                      ("token", JStr alice_token);
                      ("user", public_user alice)]).
Proof. vm_compute. reflexivity. Qed.

(* ================================================================= *)
(** * Further properties of the server *)

(** ** The authentication routes of [createServer] *)

(** The four routes registered under [/api/auth]. *)
Inductive Route : Type :=
| PostRegister   (* app.post("/api/auth/register", register) *)
| PostLogin      (* app.post("/api/auth/login", login) *)
| PostLogout     (* app.post("/api/auth/logout", logout) *)
| GetProfile.    (* app.get("/api/auth/profile", authenticateToken, getProfile) *)

(** The handler chain [createServer] attaches to each of them. *)
Definition createServer (L : JwtLib) (env : Env) (S : UserSchema) (r : Route)
  : Handler :=
  match r with
  | PostRegister => register L env S
  | PostLogin => login L env S
  | PostLogout => logout
  | GetProfile => fun req => authenticateToken L env req getProfile
  end.

(** The same request with another [Authorization] header. *)
Definition with_authorization (a : jsstring) (req : Request) : Request :=
  {| authorization := a;
     req_email := req_email req;
     req_password := req_password req;
     req_name := req_name req;
     req_user := req_user req |}.

(** The interfaces [User] and [AuthResponse] of [shared/auth.ts], read as
    checks on a JSON value: a required field must be there with its type, an
    optional one may be missing. *)
Definition is_string (o : option json) : bool :=
  match o with
  | Some (JStr _) => true
  | _ => false
  end.

Definition is_boolean (o : option json) : bool :=
  match o with
  | Some (JBool _) => true
  | _ => false
  end.

Definition optional (check : option json -> bool) (o : option json) : bool :=
  match o with
  | None => true
  | Some _ => check o
  end.

Definition is_User (o : option json) : bool :=
  match o with
  | Some (JObj fs) =>
      is_string (field "id" fs) && is_string (field "email" fs)
      && is_string (field "name" fs) && optional is_string (field "createdAt" fs)
  | _ => false
  end.

Definition is_string_array (o : option json) : bool :=
  match o with
  | Some (JArr xs) => forallb (fun x => is_string (Some x)) xs
  | _ => false
  end.

Definition is_AuthResponse (j : json) : bool :=
  match j with
  | JObj fs =>
      is_boolean (field "success" fs) && is_string (field "message" fs)
      && optional is_string (field "token" fs)
      && optional is_User (field "user" fs)
      && optional is_string_array (field "errors" fs)
  | _ => false
  end.

(** The three outcomes of the middleware in front of a handler. *)
Lemma authenticateToken_cases L env req next w :
  authenticateToken L env req next w = (failure 401 "Access token required", w) \/
  authenticateToken L env req next w
    = (failure 403 "Invalid or expired token",
       record (Verify (str (header_token (authorization req)))) w) \/
  exists claims,
    authenticateToken L env req next w
      = next (set_user req claims)
             (record Next (record (Verify (str (header_token (authorization req)))) w)).
Proof.
  unfold authenticateToken.
  destruct (truthy (header_token (authorization req))); cbn [negb]; [|auto].
  destruct (verifyToken L env (str (header_token (authorization req))) (clock w))
    as [claims|e]; [|auto].
  right; right. exists claims. reflexivity.
Qed.

(** ** What each route does to the store *)

Lemma login_users L env S req w : users (snd (login L env S req w)) = users w.
Proof. login_paths L env S req w; reflexivity. Qed.

Lemma getProfile_users req w : users (snd (getProfile req w)) = users w.
Proof. getProfile_paths req w; reflexivity. Qed.

Lemma profile_route_users L env req w :
  users (snd (authenticateToken L env req getProfile w)) = users w.
Proof.
  destruct (authenticateToken_cases L env req getProfile w) as [H|[H|[claims H]]];
    rewrite H; try reflexivity.
  rewrite getProfile_users. reflexivity.
Qed.

(** X2: [login], [logout] and the profile route never write.  On every path
    of these three routes, failures included, the users collection after the
    request is the one before it: only [register] calls [save]. *)
Theorem createServer_writes_only_on_register
        (L : JwtLib) (env : Env) (S : UserSchema) (r : Route)
        (req : Request) (w : World) :
  r <> PostRegister ->
  users (snd (createServer L env S r req w)) = users w.
Proof.
  intros Hr. destruct r; cbn [createServer].
  - contradiction.
  - apply login_users.
  - reflexivity.
  - apply profile_route_users.
Qed.

Lemma createServer_writes_only_on_register_witness :
  users (snd (createServer Ref.jwt Ref.default_env Ref.schema GetProfile
                (request (Some ("Bearer " ++ alice_token)) None None None) w0))
    = users w0.
Proof.
  apply (createServer_writes_only_on_register Ref.jwt Ref.default_env Ref.schema
           GetProfile (request (Some ("Bearer " ++ alice_token)) None None None) w0).
  discriminate.
Defined.

(** ** The shape of the answers *)

(** The status codes a route can answer with. *)
Definition statuses (r : Route) : list Z :=
  match r with
  | PostRegister => [201; 400; 500]
  | PostLogin => [200; 400; 500]
  | PostLogout => [200]
  | GetProfile => [200; 401; 403; 404; 500]
  end.

Lemma strings_are_string_array (l : list string) :
  is_string_array (Some (JArr (map JStr l))) = true.
Proof. cbn [is_string_array]. induction l as [|a l IH]; [reflexivity|exact IH]. Qed.

(** What a response has to satisfy in the two theorems below. *)
Definition flagged (resp : Response) : Prop :=
  get "success" (body resp) = Some (JBool (status resp <? 400)).

Lemma register_catch_flagged (e : JsError) :
  flagged (register_catch e) /\
  (status (register_catch e) = 400 \/ status (register_catch e) = 500) /\
  is_AuthResponse (body (register_catch e)) = true.
Proof.
  unfold register_catch, flagged.
  destruct (String.eqb (err_name e) "ValidationError").
  - split; [reflexivity|]. split; [left; reflexivity|].
    cbn [body is_AuthResponse field]. cbn [String.eqb Ascii.eqb Bool.eqb].
    cbn [is_boolean is_string optional andb].
    apply strings_are_string_array.
  - split; [reflexivity|]. split; [right; reflexivity|reflexivity].
Qed.

(** X3: on every route and every path, the [success] flag of the body agrees
    with the status: it is [true] under 400 and [false] from 400 on; and each
    route answers only with its own status codes: 201, 400 or 500 for
    [register], 200, 400 or 500 for [login], 200 for [logout], and 200, 401,
    403, 404 or 500 for the profile route. *)
Theorem createServer_success_flag
        (L : JwtLib) (env : Env) (S : UserSchema) (r : Route)
        (req : Request) (w : World) :
  get "success" (body (fst (createServer L env S r req w)))
    = Some (JBool (status (fst (createServer L env S r req w)) <? 400)) /\
  In (status (fst (createServer L env S r req w))) (statuses r).
Proof.
  destruct r; cbn [createServer statuses].
  - register_paths L env S req w; cbn [fst];
      try (split; [reflexivity|cbn; tauto]).
    destruct (register_catch_flagged e) as [Hflag [[Hs|Hs] _]];
      (split; [exact Hflag|rewrite Hs; cbn; tauto]).
  - login_paths L env S req w; cbn [fst]; split; try reflexivity; cbn; tauto.
  - split; [reflexivity|cbn; tauto].
  - destruct (authenticateToken_cases L env req getProfile w) as [H|[H|[claims H]]];
      rewrite H; try (split; [reflexivity|cbn; tauto]).
    getProfile_paths (set_user req claims)
      (record Next (record (Verify (str (header_token (authorization req)))) w));
      split; try reflexivity; cbn; tauto.
Qed.

(** X4: every body sent by [register], [login] and [logout], on success and
    on failure, has the fields the interface [AuthResponse] requires
    ([success], a boolean, and [message], a string), with [token], [user] and
    [errors] of the declared types when present.  On the profile route the
    failures have them too, but the body of a 200 has no [message]. *)
Theorem createServer_AuthResponse
        (L : JwtLib) (env : Env) (S : UserSchema) (r : Route)
        (req : Request) (w : World) :
  is_AuthResponse (body (fst (createServer L env S r req w)))
    = match r with
      | GetProfile => negb (status (fst (createServer L env S r req w)) =? 200)
      | _ => true
      end.
Proof.
  destruct r; cbn [createServer].
  - register_paths L env S req w; cbn [fst]; try reflexivity.
    + apply register_catch_flagged.
    + cbn [body is_AuthResponse field]. cbn [String.eqb Ascii.eqb Bool.eqb].
      cbn [is_boolean is_string optional andb].
      apply (strings_are_string_array (m :: ms)).
  - login_paths L env S req w; reflexivity.
  - reflexivity.
  - destruct (authenticateToken_cases L env req getProfile w) as [H|[H|[claims H]]];
      rewrite H; try reflexivity.
    getProfile_paths (set_user req claims)
      (record Next (record (Verify (str (header_token (authorization req)))) w));
      reflexivity.
Qed.

(** ** Which part of the request a route reads *)

(** X5: [register], [login] and [logout] never read the [Authorization]
    header: with any other header, or none, the answer and the effect on the
    world are the same. *)
Theorem createServer_ignores_authorization
        (L : JwtLib) (env : Env) (S : UserSchema) (r : Route)
        (a : jsstring) (req : Request) (w : World) :
  r <> GetProfile ->
  createServer L env S r (with_authorization a req) w
    = createServer L env S r req w.
Proof.
  intros Hr. destruct r; try reflexivity. contradiction.
Qed.

Lemma createServer_ignores_authorization_witness :
  createServer Ref.jwt Ref.default_env Ref.schema PostLogin
      (with_authorization (Some "Bearer not.a.token")
         (request None (Some "alice@example.com") (Some "wonderland") None)) w0
    = createServer Ref.jwt Ref.default_env Ref.schema PostLogin
        (request None (Some "alice@example.com") (Some "wonderland") None) w0.
Proof.
  apply (createServer_ignores_authorization Ref.jwt Ref.default_env Ref.schema
           PostLogin (Some "Bearer not.a.token")
           (request None (Some "alice@example.com") (Some "wonderland") None) w0).
  discriminate.
Defined.

(** X6: the profile route reads nothing of the request but the
    [Authorization] header.  Two requests with the same header get the same
    answer and leave the same world, whatever their bodies and whatever
    [user] either of them carried on arrival: the identity [getProfile] looks
    up is the one decoded from the token. *)
Theorem profile_route_reads_header_only
        (L : JwtLib) (env : Env) (S : UserSchema) (req req' : Request) (w : World) :
  authorization req' = authorization req ->
  createServer L env S GetProfile req' w = createServer L env S GetProfile req w.
Proof.
  intros Ha. cbn [createServer]. unfold authenticateToken. rewrite Ha.
  destruct (truthy (header_token (authorization req))); cbn [negb]; [|reflexivity].
  destruct (verifyToken L env (str (header_token (authorization req))) (clock w));
    reflexivity.
Qed.

Lemma profile_route_reads_header_only_witness :
  createServer Ref.jwt Ref.default_env Ref.schema GetProfile
      {| authorization := Some ("Bearer " ++ alice_token);
         req_email := Some "mallory@example.com";
         req_password := None;
         req_name := Some "Mallory";
         req_user := Some (mkPayload "0000000000" "mallory@example.com" "Mallory") |}
      w0
    = createServer Ref.jwt Ref.default_env Ref.schema GetProfile
        (request (Some ("Bearer " ++ alice_token)) None None None) w0.
Proof.
  apply (profile_route_reads_header_only Ref.jwt Ref.default_env Ref.schema).
  reflexivity.
Defined.

(** ** From one request to the next *)

Lemma find_snoc {A} (p : A -> bool) (l : list A) (x : A) :
  find p l = None -> find p (l ++ [x]) = if p x then Some x else None.
Proof.
  induction l as [|a l IH]; cbn [find app]; [reflexivity|].
  destruct (p a); [discriminate|exact IH].
Qed.

Lemma creates_true S req w :
  creates S req w = true ->
  reachable w = true /\ all_present req = true /\
  find (fun x => String.eqb (email x) (str (req_email req))) (users w) = None /\
  validate S (str (req_email req)) (str (req_password req)) (str (req_name req)) = [] /\
  email_taken (str (req_email req)) (users w) = false.
Proof.
  unfold creates. intros H.
  apply andb_true_iff in H as [H Ht]. apply negb_true_iff in Ht.
  apply andb_true_iff in H as [H Hv]. apply andb_true_iff in H as [H Hf].
  apply andb_true_iff in H as [Hr Ha].
  destruct (find _ (users w)); [discriminate|].
  destruct (validate S _ _ _); [|discriminate].
  repeat split; assumption.
Qed.

(** The world a writing [register] leaves, whether or not the token could be
    signed. *)
Lemma register_world_creates L env S req w :
  creates S req w = true ->
  snd (register L env S req w) = after_save S req w.
Proof.
  intros H. apply creates_true in H as (Hr & Ha & Hf & Hv & Ht).
  rewrite (register_written L env S req w Hr Ha Hf Hv Ht).
  destruct (generateToken L env (new_user S req w) (clock w)); reflexivity.
Qed.

Lemma find_new_user S req w :
  normalize_email (str (req_email req)) = str (req_email req) ->
  find (fun x => String.eqb (email x) (str (req_email req))) (users w) = None ->
  find (fun x => String.eqb (email x) (str (req_email req)))
       (users (after_save S req w)) = Some (new_user S req w).
Proof.
  intros Hn Hf. cbn [after_save record insert users].
  rewrite (find_snoc _ _ _ Hf). cbn [new_user email].
  rewrite Hn, String.eqb_refl. reflexivity.
Qed.

Lemma all_present_login req : all_present req = true -> login_present req = true.
Proof.
  unfold all_present, login_present. intros H.
  apply andb_true_iff in H as [H _]. exact H.
Qed.

(** X7: registering and then logging in.  After a [register] that wrote its
    document under an email typed in normalised form (trimmed, lower case),
    a [login] with the same email and password is answered 200 with a token
    and with the [id], [email] and [name] of that document, provided the
    stored hash of a password compares equal to that password and
    [JWT_EXPIRE] is readable. *)
Theorem register_then_login
        (L : JwtLib) (env : Env) (S : UserSchema)
        (req : Request) (w : World) (ttl : Z) :
  creates S req w = true ->
  normalize_email (str (req_email req)) = str (req_email req) ->
  timespan L (JWT_EXPIRE env) = Some ttl ->
  bcrypt_compare S (str (req_password req))
                 (bcrypt_hash S (str (req_password req))) = true ->
  exists token,
    fst (login L env S req (snd (register L env S req w)))
      = mkResponse 200
          (JObj [("success", JBool true);
                 ("message", JStr "Login successful");
                 ("token", JStr token);
                 ("user",
                  JObj [("id", JStr (_id (new_user S req w)));
                        ("email", JStr (str (req_email req)));
                        ("name", JStr (str (req_name req)))])]).
Proof.
  intros Hc Hn Httl Hcmp.
  rewrite (register_world_creates L env S req w Hc).
  apply creates_true in Hc as (Hr & Ha & Hf & Hv & Ht).
  destruct (generateToken_returns L env (new_user S req w) (clock w) ttl Httl)
    as [token Htok].
  exists token.
  rewrite (login_found L env S req (after_save S req w) (new_user S req w)
             Hr (all_present_login req Ha) (find_new_user S req w Hn Hf)).
  cbn [new_user password]. rewrite Hcmp.
  change (clock (after_save S req w)) with (clock w).
  fold (new_user S req w). rewrite Htok.
  unfold public_user. cbn [new_user _id email name]. rewrite Hn. reflexivity.
Qed.

Lemma register_then_login_witness :
  let john := request None (Some "john@example.com") (Some "password123")
                      (Some "John Doe") in
  exists token,
    fst (login Ref.jwt Ref.default_env Ref.schema john
           (snd (register Ref.jwt Ref.default_env Ref.schema john w0)))
      = mkResponse 200
          (JObj [("success", JBool true);
                 ("message", JStr "Login successful");
                 ("token", JStr token);
                 ("user",
                  JObj [("id", JStr (_id (new_user Ref.schema john w0)));
                        ("email", JStr (str (req_email john)));
                        ("name", JStr (str (req_name john)))])]).
Proof.
  apply (register_then_login Ref.jwt Ref.default_env Ref.schema
           (request None (Some "john@example.com") (Some "password123")
                    (Some "John Doe")) w0 604800);
    reflexivity.
Defined.

(** X8: registering the same email twice.  After a [register] that wrote its
    document under an email typed in normalised form (trimmed, lower case),
    every further [register] with that email and non-empty fields, whatever
    its password and name, is answered 400 with
    ["User with this email already exists"] and writes nothing. *)
Theorem register_twice
        (L : JwtLib) (env : Env) (S : UserSchema)
        (req req' : Request) (w : World) :
  creates S req w = true ->
  normalize_email (str (req_email req)) = str (req_email req) ->
  all_present req' = true ->
  req_email req' = req_email req ->
  fst (register L env S req' (snd (register L env S req w)))
    = failure 400 "User with this email already exists" /\
  users (snd (register L env S req' (snd (register L env S req w))))
    = users (snd (register L env S req w)).
Proof.
  intros Hc Hn Ha' He.
  rewrite (register_world_creates L env S req w Hc).
  apply creates_true in Hc as (Hr & Ha & Hf & Hv & Ht).
  pose proof (find_new_user S req w Hn Hf) as Hnew. rewrite <- He in Hnew.
  rewrite (register_existing L env S req' (after_save S req w) (new_user S req w)
             Hr Ha' Hnew).
  split; reflexivity.
Qed.

Lemma register_twice_witness :
  let john := request None (Some "john@example.com") (Some "password123")
                      (Some "John Doe") in
  let again := request None (Some "john@example.com") (Some "another-one")
                       (Some "Johnny") in
  fst (register Ref.jwt Ref.default_env Ref.schema again
         (snd (register Ref.jwt Ref.default_env Ref.schema john w0)))
    = failure 400 "User with this email already exists" /\
  users (snd (register Ref.jwt Ref.default_env Ref.schema again
                (snd (register Ref.jwt Ref.default_env Ref.schema john w0))))
    = users (snd (register Ref.jwt Ref.default_env Ref.schema john w0)).
Proof.
  apply (register_twice Ref.jwt Ref.default_env Ref.schema
           (request None (Some "john@example.com") (Some "password123")
                    (Some "John Doe"))
           (request None (Some "john@example.com") (Some "another-one")
                    (Some "Johnny")) w0);
    reflexivity.
Defined.

(** ** Tokens at the profile route *)

Lemma authenticateToken_scheme_passes L env req next w word tok claims :
  occurs " " word = false -> occurs " " tok = false -> tok <> "" ->
  authorization req = Some (word ++ " " ++ tok) ->
  verifyToken L env tok (clock w) = Ok claims ->
  authenticateToken L env req next w
    = next (set_user req claims) (record Next (record (Verify tok) w)).
Proof.
  intros Hw Ht Hne Ha Hv.
  pose proof (header_token_scheme word tok Hw Ht) as Htok. rewrite <- Ha in Htok.
  rewrite (authenticateToken_accepted L env req next w claims);
    rewrite Htok; cbn [str]; auto using truthy_Some.
Qed.

Lemma authenticateToken_scheme_rejects L env req next w word tok e :
  occurs " " word = false -> occurs " " tok = false -> tok <> "" ->
  authorization req = Some (word ++ " " ++ tok) ->
  verifyToken L env tok (clock w) = Throw e ->
  authenticateToken L env req next w
    = (failure 403 "Invalid or expired token", record (Verify tok) w).
Proof.
  intros Hw Ht Hne Ha Hv.
  pose proof (header_token_scheme word tok Hw Ht) as Htok. rewrite <- Ha in Htok.
  rewrite (authenticateToken_rejected L env req next w e);
    rewrite Htok; cbn [str]; auto using truthy_Some.
Qed.

(** A token signed for [user] at [iat] reads back as the claims of [user]
    before [iat + ttl] and is refused from then on. *)
Lemma verifyToken_issued L env user iat ttl token now :
  timespan L (JWT_EXPIRE env) = Some ttl ->
  generateToken L env user iat = Ok token ->
  verifyToken L env token now
    = if now <? iat + ttl
      then Ok (mkPayload (_id user) (email user) (name user))
      else Throw (Error "Invalid token").
Proof.
  intros Httl Htok. unfold verifyToken, generateToken in *.
  rewrite (verify_sign L _ _ _ _ _ _ now Httl Htok).
  destruct (now <? iat + ttl); reflexivity.
Qed.

(** An issued token that has not expired, sent as [Bearer <token>], passes
    the gate: [getProfile] runs with the claims of the user it was issued
    for. *)
Lemma bearer_passes L env (user : IUser) iat ttl token req w :
  timespan L (JWT_EXPIRE env) = Some ttl ->
  generateToken L env user iat = Ok token ->
  occurs " " token = false -> token <> "" ->
  authorization req = Some ("Bearer " ++ token) ->
  clock w < iat + ttl ->
  authenticateToken L env req getProfile w
    = getProfile (set_user req (mkPayload (_id user) (email user) (name user)))
                 (record Next (record (Verify token) w)).
Proof.
  intros Httl Htok Hsp Hne Ha Hclock.
  pose proof (verifyToken_issued L env user iat ttl token (clock w) Httl Htok) as Hv.
  apply Z.ltb_lt in Hclock. rewrite Hclock in Hv.
  apply (authenticateToken_scheme_passes L env req getProfile w "Bearer" token _
           eq_refl Hsp Hne Ha Hv).
Qed.

(** X9: a token issued for a user opens the profile of the stored record that
    has the user's id at the time of the request.  Sent as [Bearer <token>]
    before the token expires, to a reachable database, it is answered 200 with
    [id], [email], [name] and [createdAt] of the first stored record with that
    id, and 404 ["User not found"] when no record has it any more: the
    middleware checks the token, not the store. *)
Theorem issued_token_opens_profile
        (L : JwtLib) (env : Env) (S : UserSchema) (user : IUser)
        (iat ttl : Z) (token : string) (req : Request) (w : World) :
  timespan L (JWT_EXPIRE env) = Some ttl ->
  generateToken L env user iat = Ok token ->
  occurs " " token = false -> token <> "" ->
  authorization req = Some ("Bearer " ++ token) ->
  reachable w = true ->
  clock w < iat + ttl ->
  fst (createServer L env S GetProfile req w)
    = match find (fun u => String.eqb (_id u) (_id user)) (users w) with
      | Some found =>
          mkResponse 200
            (JObj [("success", JBool true);
                   ("user",
                    JObj [("id", JStr (_id found));
                          ("email", JStr (email found));
                          ("name", JStr (name found));
                          ("createdAt", JStr (createdAt found))])])
      | None => failure 404 "User not found"
      end.
Proof.
  intros Httl Htok Hsp Hne Ha Hr Hclock. cbn [createServer].
  rewrite (bearer_passes L env user iat ttl token req w Httl Htok Hsp Hne Ha Hclock).
  rewrite getProfile_reachable by exact Hr.
  cbn [set_user req_user option_map userId lookup_id record users].
  destruct (find (fun u => String.eqb (_id u) (_id user)) (users w)); reflexivity.
Qed.

Lemma issued_token_opens_profile_witness :
  fst (createServer Ref.jwt Ref.default_env Ref.schema GetProfile
         (request (Some ("Bearer " ++ alice_token)) None None None) w0)
    = match find (fun u => String.eqb (_id u) (_id alice)) (users w0) with
      | Some found =>
          mkResponse 200
            (JObj [("success", JBool true);
                   ("user",
                    JObj [("id", JStr (_id found));
                          ("email", JStr (email found));
                          ("name", JStr (name found));
                          ("createdAt", JStr (createdAt found))])])
      | None => failure 404 "User not found"
      end.
Proof.
  apply (issued_token_opens_profile Ref.jwt Ref.default_env Ref.schema alice
           1000 604800 alice_token
           (request (Some ("Bearer " ++ alice_token)) None None None) w0);
    try reflexivity.
  discriminate.
Defined.

(** X10: registering and then fetching the profile.  When [register] wrote
    its document and answered with a token, and the generated [_id] is not
    the id of an older record, that token, sent as [Bearer <token>] before it
    expires to a reachable database holding the users [register] left, is
    answered 200 with the [id], [email] (as stored: normalised), [name] and
    [createdAt] of the new document. *)
Theorem registered_token_opens_profile
        (L : JwtLib) (env : Env) (S : UserSchema)
        (req : Request) (w : World) (ttl : Z) (token : string)
        (req' : Request) (w' : World) :
  creates S req w = true ->
  timespan L (JWT_EXPIRE env) = Some ttl ->
  get "token" (body (fst (register L env S req w))) = Some (JStr token) ->
  occurs " " token = false -> token <> "" ->
  (forall u, In u (users w) -> _id u <> _id (new_user S req w)) ->
  authorization req' = Some ("Bearer " ++ token) ->
  reachable w' = true ->
  users w' = users (snd (register L env S req w)) ->
  clock w' < clock w + ttl ->
  fst (createServer L env S GetProfile req' w')
    = mkResponse 200
        (JObj [("success", JBool true);
               ("user",
                JObj [("id", JStr (_id (new_user S req w)));
                      ("email", JStr (normalize_email (str (req_email req))));
                      ("name", JStr (str (req_name req)));
                      ("createdAt", JStr (createdAt (new_user S req w)))])]).
Proof.
  intros Hc Httl Hbody Hsp Hne Hfresh Ha Hr' Hu' Hclock.
  rewrite (register_world_creates L env S req w Hc) in Hu'.
  pose proof Hc as Hc'. apply creates_true in Hc' as (Hr & Hp & Hf & Hv & Ht).
  rewrite (register_written L env S req w Hr Hp Hf Hv Ht) in Hbody.
  destruct (generateToken L env (new_user S req w) (clock w)) as [tok|e] eqn:Htok.
  - cbn in Hbody. inversion Hbody; subst tok.
    cbn [createServer].
    rewrite (bearer_passes L env (new_user S req w) (clock w) ttl token req' w'
               Httl Htok Hsp Hne Ha Hclock).
    rewrite getProfile_reachable by exact Hr'.
    cbn [set_user req_user option_map userId lookup_id record users].
    rewrite Hu'. cbn [after_save record insert users].
    rewrite find_snoc by (apply (lookup_id_absent _ _ Hfresh)).
    rewrite String.eqb_refl. reflexivity.
  - cbn [fst] in Hbody. unfold register_catch in Hbody.
    destruct (String.eqb (err_name e) "ValidationError"); discriminate.
Qed.

Definition john : Request :=
  request None (Some "john@example.com") (Some "password123") (Some "John Doe").

(** The token [register] answers [john] with in [w0]. *)
Definition john_token : string :=
  Eval vm_compute in
    match get "token" (body (fst (register Ref.jwt Ref.default_env Ref.schema john w0))) with
    | Some (JStr tok) => tok
    | _ => "none"
    end.

Lemma registered_token_opens_profile_witness :
  fst (createServer Ref.jwt Ref.default_env Ref.schema GetProfile
         (request (Some ("Bearer " ++ john_token)) None None None)
         (snd (register Ref.jwt Ref.default_env Ref.schema john w0)))
    = mkResponse 200
        (JObj [("success", JBool true);
               ("user",
                JObj [("id", JStr (_id (new_user Ref.schema john w0)));
                      ("email", JStr (normalize_email (str (req_email john))));
                      ("name", JStr (str (req_name john)));
                      ("createdAt", JStr (createdAt (new_user Ref.schema john w0)))])]).
Proof.
  apply (registered_token_opens_profile Ref.jwt Ref.default_env Ref.schema
           john w0 604800 john_token
           (request (Some ("Bearer " ++ john_token)) None None None)
           (snd (register Ref.jwt Ref.default_env Ref.schema john w0)));
    try reflexivity.
  - discriminate.
  - intros u [<-|[]]. vm_compute. discriminate.
Defined.

(** X11: an expired token is refused at the gate.  A token issued for a user,
    sent under any scheme word once its time-to-live has elapsed, is answered
    403 ["Invalid or expired token"]; [getProfile] does not run and the store
    is not even connected to: the only call is the verification. *)
Theorem expired_token_is_forbidden
        (L : JwtLib) (env : Env) (S : UserSchema) (user : IUser)
        (iat ttl : Z) (word token : string) (req : Request) (w : World) :
  timespan L (JWT_EXPIRE env) = Some ttl ->
  generateToken L env user iat = Ok token ->
  occurs " " word = false -> occurs " " token = false -> token <> "" ->
  authorization req = Some (word ++ " " ++ token) ->
  iat + ttl <= clock w ->
  createServer L env S GetProfile req w
    = (mkResponse 403 (JObj [("success", JBool false);
                             ("message", JStr "Invalid or expired token")]),
       record (Verify token) w).
Proof.
  intros Httl Htok Hw Hsp Hne Ha Hclock. cbn [createServer].
  pose proof (verifyToken_issued L env user iat ttl token (clock w) Httl Htok) as Hv.
  apply Z.ltb_ge in Hclock. rewrite Hclock in Hv.
  apply (authenticateToken_scheme_rejects L env req getProfile w word token _
           Hw Hsp Hne Ha Hv).
Qed.

Lemma expired_token_is_forbidden_witness :
  createServer Ref.jwt Ref.default_env Ref.schema GetProfile
      (request (Some ("Bearer " ++ alice_token)) None None None)
      (mkWorld [alice] true 605800 [])
    = (mkResponse 403 (JObj [("success", JBool false);
                             ("message", JStr "Invalid or expired token")]),
       record (Verify alice_token) (mkWorld [alice] true 605800 [])).
Proof.
  apply (expired_token_is_forbidden Ref.jwt Ref.default_env Ref.schema alice
           1000 604800 "Bearer" alice_token
           (request (Some ("Bearer " ++ alice_token)) None None None)
           (mkWorld [alice] true 605800 []));
    first [reflexivity | discriminate | (cbn; lia)].
Defined.

(** ** The [Authorization] header, part by part *)

Lemma split_parts_free (sep : ascii) (s p : string) :
  In p (split sep s) -> occurs sep p = false.
Proof.
  revert p. induction s as [|c r IH]; intros p; cbn [split].
  - intros [<-|[]]. reflexivity.
  - destruct (Ascii.eqb c sep) eqn:Hc.
    + intros [<-|Hin]; [reflexivity|exact (IH p Hin)].
    + destruct (split sep r) as [|h t].
      * intros [<-|[]]. cbn [occurs]. rewrite Hc. reflexivity.
      * intros [<-|Hin].
        -- cbn [occurs]. rewrite Hc. apply IH. left. reflexivity.
        -- apply IH. right. exact Hin.
Qed.

Lemma header_token_second_of_three (word tok rest : string) :
  occurs " " word = false -> occurs " " tok = false ->
  header_token (Some (word ++ " " ++ tok ++ " " ++ rest)) = Some tok.
Proof.
  intros Hw Ht. unfold header_token, js_and.
  rewrite truthy_Some by (destruct word; discriminate).
  cbn [str]. change (" " ++ tok ++ " " ++ rest) with (String " " (tok ++ String " " rest)).
  rewrite (split_at_first _ _ _ Hw), (split_at_first _ _ _ Ht).
  reflexivity.
Qed.

(** X12: what follows a second space in the header is ignored.  A header
    [<word> <token> <anything>] is treated exactly as [<word> <token>]: same
    answer on the profile route, same calls. *)
Theorem profile_route_ignores_trailing_parts
        (L : JwtLib) (env : Env) (S : UserSchema)
        (word tok rest : string) (req : Request) (w : World) :
  occurs " " word = false -> occurs " " tok = false ->
  createServer L env S GetProfile
      (with_authorization (Some (word ++ " " ++ tok ++ " " ++ rest)) req) w
    = createServer L env S GetProfile
        (with_authorization (Some (word ++ " " ++ tok)) req) w.
Proof.
  intros Hw Ht. cbn [createServer]. unfold authenticateToken.
  cbn [with_authorization authorization].
  rewrite (header_token_second_of_three word tok rest Hw Ht),
    (header_token_scheme word tok Hw Ht).
  destruct (truthy (Some tok)); cbn [negb]; [|reflexivity].
  destruct (verifyToken L env (str (Some tok)) (clock w)); reflexivity.
Qed.

Lemma profile_route_ignores_trailing_parts_witness :
  createServer Ref.jwt Ref.default_env Ref.schema GetProfile
      (with_authorization (Some ("Bearer" ++ " " ++ alice_token ++ " " ++ "and more"))
         (request None None None None)) w0
    = createServer Ref.jwt Ref.default_env Ref.schema GetProfile
        (with_authorization (Some ("Bearer" ++ " " ++ alice_token))
           (request None None None None)) w0.
Proof.
  apply (profile_route_ignores_trailing_parts Ref.jwt Ref.default_env Ref.schema
           "Bearer" alice_token "and more" (request None None None None) w0);
    reflexivity.
Defined.

(** X13: the token the middleware reads off a header never contains a space,
    and a header whose scheme word is followed by nothing, or by a second
    space, carries the empty token: the request is answered 401 and nothing
    is verified, whatever comes after the two spaces. *)
Theorem header_token_is_one_part
        (L : JwtLib) (env : Env) (req : Request) (next : Handler) (w : World) :
  (forall t, header_token (authorization req) = Some t -> occurs " " t = false) /\
  (forall word rest,
      occurs " " word = false ->
      authorization req = Some (word ++ " ")
      \/ authorization req = Some (word ++ "  " ++ rest) ->
      authenticateToken L env req next w
        = (failure 401 "Access token required", w)).
Proof.
  split.
  - intros t. unfold header_token, js_and.
    destruct (authorization req) as [h|]; [|discriminate].
    destruct (truthy (Some h)) eqn:Eh.
    + cbn [str]. intros Hn. apply nth_error_In in Hn.
      apply (split_parts_free _ _ _ Hn).
    + intros Ht. inversion Ht; subst t.
      unfold truthy in Eh. apply negb_false_iff, String.eqb_eq in Eh.
      rewrite Eh. reflexivity.
  - intros word rest Hw Ha. apply authenticateToken_no_token.
    destruct Ha as [Ha|Ha]; rewrite Ha.
    + change (word ++ " ") with (word ++ " " ++ "").
      rewrite (header_token_scheme word "" Hw eq_refl). reflexivity.
    + change (word ++ "  " ++ rest) with (word ++ " " ++ "" ++ " " ++ rest).
      rewrite (header_token_second_of_three word "" rest Hw eq_refl). reflexivity.
Qed.

(** ** Login, path by path *)

(** X14: a [login] request whose email or password is absent or empty is
    answered 400 ["Email and password are required"]; the store is not
    queried (the only call is the connection). *)
Theorem login_requires_both_fields
        (L : JwtLib) (env : Env) (S : UserSchema) (req : Request) (w : World) :
  reachable w = true ->
  absent_or_empty (req_email req) \/ absent_or_empty (req_password req) ->
  login L env S req w
    = (mkResponse 400 (JObj [("success", JBool false);
                             ("message", JStr "Email and password are required")]),
       record Connect w).
Proof.
  intros Hr Habs.
  apply (login_absent L env S req w Hr).
  unfold login_present.
  destruct Habs as [H|H]; apply truthy_false in H; rewrite H;
    rewrite ?andb_false_r; reflexivity.
Qed.

Lemma login_requires_both_fields_witness :
  login Ref.jwt Ref.default_env Ref.schema
        (request None (Some "alice@example.com") (Some "") None) w0
    = (mkResponse 400 (JObj [("success", JBool false);
                             ("message", JStr "Email and password are required")]),
       record Connect w0).
Proof.
  apply (login_requires_both_fields Ref.jwt Ref.default_env Ref.schema
           (request None (Some "alice@example.com") (Some "") None) w0).
  - reflexivity.
  - right. right. reflexivity.
Defined.

(** X15: a [login] with the email of a stored user and a password that
    compares equal to the stored hash is answered 200 with the [id], [email]
    and [name] of that user and with a token which, until it expires, verifies
    to exactly those three claims.  Nothing is written: the users are the
    same, and the only calls are the connection and the [findOne]. *)
Theorem login_success
        (L : JwtLib) (env : Env) (S : UserSchema)
        (req : Request) (w : World) (user : IUser) (h : string) (ttl : Z) :
  reachable w = true ->
  login_present req = true ->
  find (fun x => String.eqb (email x) (str (req_email req))) (users w) = Some user ->
  password user = Some h ->
  bcrypt_compare S (str (req_password req)) h = true ->
  timespan L (JWT_EXPIRE env) = Some ttl ->
  exists token,
    login L env S req w
      = (mkResponse 200
           (JObj [("success", JBool true);
                  ("message", JStr "Login successful");
                  ("token", JStr token);
                  ("user",
                   JObj [("id", JStr (_id user));
                         ("email", JStr (email user));
                         ("name", JStr (name user))])]),
         record (FindOne (str (req_email req))) (record Connect w)) /\
    forall now,
      now < clock w + ttl ->
      verifyToken L env token now
        = Ok {| userId := _id user; p_email := email user; p_name := name user |}.
Proof.
  intros Hr Ha Hf Hh Hcmp Httl.
  destruct (generateToken_returns L env user (clock w) ttl Httl) as [token Htok].
  exists token. split.
  - rewrite (login_found L env S req w user Hr Ha Hf), Hh, Hcmp, Htok. reflexivity.
  - intros now Hnow.
    rewrite (verifyToken_issued L env user (clock w) ttl token now Httl Htok).
    apply Z.ltb_lt in Hnow. rewrite Hnow. reflexivity.
Qed.

Lemma login_success_witness :
  let req := request None (Some "alice@example.com") (Some "wonderland") None in
  exists token,
    login Ref.jwt Ref.default_env Ref.schema req w0
      = (mkResponse 200
           (JObj [("success", JBool true);
                  ("message", JStr "Login successful");
                  ("token", JStr token);
                  ("user",
                   JObj [("id", JStr (_id alice));
                         ("email", JStr (email alice));
                         ("name", JStr (name alice))])]),
         record (FindOne (str (req_email req))) (record Connect w0)) /\
    forall now,
      now < clock w0 + 604800 ->
      verifyToken Ref.jwt Ref.default_env token now
        = Ok {| userId := _id alice; p_email := email alice; p_name := name alice |}.
Proof.
  apply (login_success Ref.jwt Ref.default_env Ref.schema
           (request None (Some "alice@example.com") (Some "wonderland") None)
           w0 alice "$2b$10$wonderland" 604800);
    reflexivity.
Defined.

(** ** Register, on its error paths *)

(** X16: when the validators reject the new document, [register] answers 400
    ["Validation failed"] with the validators' messages, in their order, under
    [errors]; nothing is written, the only store call was the [findOne]. *)
Theorem register_validation_failure
        (L : JwtLib) (env : Env) (S : UserSchema)
        (req : Request) (w : World) (m : string) (ms : list string) :
  reachable w = true ->
  all_present req = true ->
  find (fun x => String.eqb (email x) (str (req_email req))) (users w) = None ->
  validate S (str (req_email req)) (str (req_password req)) (str (req_name req))
    = m :: ms ->
  fst (register L env S req w)
    = mkResponse 400
        (JObj [("success", JBool false);
               ("message", JStr "Validation failed");
               ("errors", JArr (map JStr (m :: ms)))]) /\
  users (snd (register L env S req w)) = users w /\
  log (snd (register L env S req w))
    = FindOne (str (req_email req)) :: Connect :: log w.
Proof.
  intros Hr Ha Hf Hv.
  rewrite (register_invalid L env S req w m ms Hr Ha Hf Hv).
  repeat split.
Qed.

Lemma register_validation_failure_witness :
  let req := request None (Some "john@example.com") (Some "123") (Some "J") in
  fst (register Ref.jwt Ref.default_env Ref.schema req w0)
    = mkResponse 400
        (JObj [("success", JBool false);
               ("message", JStr "Validation failed");
               ("errors",
                JArr (map JStr ["Password must be at least 6 characters";
                                "Name must be at least 2 characters"]))]) /\
  users (snd (register Ref.jwt Ref.default_env Ref.schema req w0)) = users w0 /\
  log (snd (register Ref.jwt Ref.default_env Ref.schema req w0))
    = FindOne (str (req_email req)) :: Connect :: log w0.
Proof.
  apply (register_validation_failure Ref.jwt Ref.default_env Ref.schema
           (request None (Some "john@example.com") (Some "123") (Some "J")) w0);
    reflexivity.
Defined.

(** X17: [register] does not undo the write when signing the token fails.
    Once the document is written, an error thrown by [generateToken] lands in
    the [catch] block: the answer is a failure (500, unless the error is
    named [ValidationError]), yet the new user stays in the store. *)
Theorem register_keeps_user_when_signing_fails
        (L : JwtLib) (env : Env) (S : UserSchema)
        (req : Request) (w : World) (e : JsError) :
  creates S req w = true ->
  generateToken L env (new_user S req w) (clock w) = Throw e ->
  users (snd (register L env S req w)) = (users w ++ [new_user S req w])%list /\
  get "success" (body (fst (register L env S req w))) = Some (JBool false) /\
  (err_name e <> "ValidationError" ->
   fst (register L env S req w) = failure 500 "Internal server error").
Proof.
  intros Hc Htok.
  rewrite (register_world_creates L env S req w Hc).
  apply creates_true in Hc as (Hr & Ha & Hf & Hv & Ht).
  rewrite (register_written L env S req w Hr Ha Hf Hv Ht), Htok. cbn [fst].
  split; [reflexivity|]. split.
  - unfold register_catch.
    destruct (String.eqb (err_name e) "ValidationError"); reflexivity.
  - intros Hn. unfold register_catch.
    destruct (String.eqb_spec (err_name e) "ValidationError");
      [contradiction|reflexivity].
Qed.

(** [JWT_EXPIRE] set to a word that is no time span. *)
Definition unreadable_env : Env :=
  {| env_JWT_SECRET := None; env_JWT_EXPIRE := Some "soon" |}.

Lemma register_keeps_user_when_signing_fails_witness :
  users (snd (register Ref.jwt unreadable_env Ref.schema john w0))
    = (users w0 ++ [new_user Ref.schema john w0])%list /\
  get "success" (body (fst (register Ref.jwt unreadable_env Ref.schema john w0)))
    = Some (JBool false) /\
  fst (register Ref.jwt unreadable_env Ref.schema john w0)
    = failure 500 "Internal server error".
Proof.
  destruct (register_keeps_user_when_signing_fails Ref.jwt unreadable_env Ref.schema
              john w0
              (Error "expiresIn should be a number of seconds or string representing a timespan")
              eq_refl eq_refl) as (Hu & Hs & H500).
  split; [exact Hu|]. split; [exact Hs|].
  apply H500. discriminate.
Defined.

(** ** An unreachable database *)

(** X18: when the connection fails, [register], [login] and [getProfile]
    answer 500 ["Internal server error"] whatever the request, and nothing
    else happens: no query, no write, and the error itself is not shown. *)
Theorem unreachable_database_is_500
        (L : JwtLib) (env : Env) (S : UserSchema) (req : Request) (w : World) :
  reachable w = false ->
  register L env S req w
    = (mkResponse 500 (JObj [("success", JBool false);
                             ("message", JStr "Internal server error")]), w) /\
  login L env S req w
    = (mkResponse 500 (JObj [("success", JBool false);
                             ("message", JStr "Internal server error")]), w) /\
  getProfile req w
    = (mkResponse 500 (JObj [("success", JBool false);
                             ("message", JStr "Internal server error")]), w).
Proof.
  intros Hr. split; [|split].
  - apply (register_unreachable L env S req w Hr).
  - apply (login_unreachable L env S req w Hr).
  - apply (getProfile_unreachable req w Hr).
Qed.

Lemma unreachable_database_is_500_witness :
  let down := mkWorld [alice] false 1000 [] in
  register Ref.jwt Ref.default_env Ref.schema john down
    = (mkResponse 500 (JObj [("success", JBool false);
                             ("message", JStr "Internal server error")]), down) /\
  login Ref.jwt Ref.default_env Ref.schema john down
    = (mkResponse 500 (JObj [("success", JBool false);
                             ("message", JStr "Internal server error")]), down) /\
  getProfile john down
    = (mkResponse 500 (JObj [("success", JBool false);
                             ("message", JStr "Internal server error")]), down).
Proof.
  apply (unreachable_database_is_500 Ref.jwt Ref.default_env Ref.schema john
           (mkWorld [alice] false 1000 [])).
  reflexivity.
Defined.

(** ** The configuration of [jwt.ts] *)

(** X19: an unset and an empty [JWT_SECRET] both mean the secret written in
    [jwt.ts].  So a token issued by a server started without [JWT_SECRET] is
    accepted, until it expires, by any server started without it or with an
    empty one, whatever [JWT_EXPIRE] the verifying server has. *)
Theorem default_secret_is_shared
        (L : JwtLib) (env env' : Env) (user : IUser)
        (iat ttl : Z) (token : string) (now : Z) :
  truthy (env_JWT_SECRET env) = false ->
  truthy (env_JWT_SECRET env') = false ->
  timespan L (JWT_EXPIRE env) = Some ttl ->
  generateToken L env user iat = Ok token ->
  now < iat + ttl ->
  JWT_SECRET env = "your-secret-key-change-in-production" /\
  verifyToken L env' token now
    = Ok {| userId := _id user; p_email := email user; p_name := name user |}.
Proof.
  intros Hs Hs' Httl Htok Hnow.
  assert (Hsec : forall e, truthy (env_JWT_SECRET e) = false ->
                           JWT_SECRET e = "your-secret-key-change-in-production")
    by (intros e He; unfold JWT_SECRET, js_or; rewrite He; reflexivity).
  split; [exact (Hsec env Hs)|].
  unfold verifyToken, generateToken in *.
  rewrite (Hsec env' Hs'), <- (Hsec env Hs).
  rewrite (verify_sign L _ _ _ _ _ _ now Httl Htok).
  apply Z.ltb_lt in Hnow. rewrite Hnow. reflexivity.
Qed.

Lemma default_secret_is_shared_witness :
  JWT_SECRET Ref.default_env = "your-secret-key-change-in-production" /\
  verifyToken Ref.jwt {| env_JWT_SECRET := Some ""; env_JWT_EXPIRE := Some "1h" |}
              alice_token 5000
    = Ok {| userId := _id alice; p_email := email alice; p_name := name alice |}.
Proof.
  apply (default_secret_is_shared Ref.jwt Ref.default_env
           {| env_JWT_SECRET := Some ""; env_JWT_EXPIRE := Some "1h" |}
           alice 1000 604800 alice_token 5000);
    reflexivity.
Defined.
